(** * SmartSeek supervision core: a shallow embedding and its properties

    The TypeScript sources under [src/resilience] and [src/supervisor] are
    embedded as Rocq functions over explicit state.  Conventions:

    - a JavaScript [number] that holds a count, a length or a millisecond
      timestamp is a [Z]; [number | null] is an [option Z]; a [number] that
      the caller supplies unvalidated and that the code compares or
      multiplies (a queue's [maxSize], the retry delays and factors) is the
      rational [Q] that the double is, and the result of an arithmetic
      operation on such numbers is rounded to a double by [Double.fl];
    - [Date.now()] is an explicit argument, one reading for each run of
      synchronous code (or is read from an abstract world by a [clock]
      function), so every timing is quantified over;
    - an [async] method is cut at its [await]s: one function up to the
      [await], one for each way the awaited promise settles;
    - an optional callback ([onStateChange], [onDrop], [onDead], ...) and an
      [EventEmitter.emit] are recorded as an entry appended to a log kept
      next to the object, newest entry last, and the callback is taken to
      return; in the retry composer, whose [try] and [catch] decide what a
      throwing callback leads to, a callback is a function on the world
      that returns or throws;
    - a method that mutates [this] returns the new object; a method that
      may [throw] returns a result type with one constructor per exit.

    The models come first, the theorems after them. *)

From Stdlib Require Import ZArith QArith Qround Qminmax Qabs Bool List String Ascii Lia.
From Stdlib Require Import DecimalString.
From stdpp Require Import base option list strings gmap.
Import ListNotations.

Local Open Scope Z_scope.

(* ===================================================================== *)
(** * JavaScript numbers: the doubles *)
(* ===================================================================== *)

Module Double.

(** The finite doubles are rationals.  [fl x] is the double nearest to
    the rational [x], ties going to the even significand (IEEE 754
    round-to-nearest-even, the rounding of every JavaScript arithmetic
    operation), for [x] in the normal range: a significand of 53 bits and
    an exponent that is not bounded here, so overflow to an infinity,
    the subnormals and [NaN] are not represented. *)
Definition roundHalfEven (x : Q) : Z :=
  let f := Qfloor x in
  match (x - inject_Z f ?= 1 # 2)%Q with
  | Lt => f
  | Gt => f + 1
  | Eq => if Z.even f then f else f + 1
  end.

Definition fl (x : Q) : Q :=
  if Qeq_bool x 0 then 0%Q
  else
    let a := Qabs x in
    let e0 := Z.log2 (Qnum a) - Z.log2 (Zpos (Qden a)) - 52 in
    let e := if Qle_bool (2 ^ 52) (a / 2 ^ e0) then e0 else e0 - 1 in
    let v := (inject_Z (roundHalfEven (a / 2 ^ e)) * 2 ^ e)%Q in
    Qred (if Qle_bool 0 x then v else - v).

(** The doubles that the literals [0.1], [0.2] and [0.8] denote. *)
Definition d0_1 : Q := 3602879701896397 # 36028797018963968.
Definition d0_2 : Q := 3602879701896397 # 18014398509481984.
Definition d0_8 : Q := 3602879701896397 # 4503599627370496.

End Double.

(* ===================================================================== *)
(** * Circuit breaker ([src/resilience/circuit-breaker.ts]) *)
(* ===================================================================== *)

Module CircuitBreaker.

Inductive CircuitBreakerState := CLOSED | OPEN | HALF_OPEN.

Definition state_eqb (a b : CircuitBreakerState) : bool :=
  match a, b with
  | CLOSED, CLOSED | OPEN, OPEN | HALF_OPEN, HALF_OPEN => true
  | _, _ => false
  end.

Record CircuitBreakerConfig := mkConfig {
  failureThreshold : Z;
  resetTimeoutMs : Z;
  successThreshold : Z;
  cfg_name : option string
}.

Record CircuitBreakerStats := mkStats {
  st_state : CircuitBreakerState;
  st_failures : Z;
  st_successes : Z;
  st_lastFailure : option Z;
  st_lastSuccess : option Z;
  st_totalCalls : Z;
  st_totalFailures : Z;
  st_totalSuccesses : Z
}.

(** [DEFAULT_CONFIG] *)
Definition DEFAULT_CONFIG : CircuitBreakerConfig :=
  {| failureThreshold := 5; resetTimeoutMs := 30000; successThreshold := 3;
     cfg_name := None |}.

(** The private fields of the class.  [notified] is the log of
    [config.onStateChange(oldState, newState, stats)] calls. *)
Record CircuitBreaker := mkBreaker {
  state : CircuitBreakerState;
  failures : Z;
  successes : Z;
  lastFailureTime : option Z;
  lastSuccessTime : option Z;
  totalCalls : Z;
  totalFailures : Z;
  totalSuccesses : Z;
  config : CircuitBreakerConfig;
  notified : list (CircuitBreakerState * CircuitBreakerState * CircuitBreakerStats)
}.

(** [new CircuitBreaker(config)], the configuration already merged over
    [DEFAULT_CONFIG]. *)
Definition new (cfg : CircuitBreakerConfig) : CircuitBreaker :=
  {| state := CLOSED; failures := 0; successes := 0;
     lastFailureTime := None; lastSuccessTime := None;
     totalCalls := 0; totalFailures := 0; totalSuccesses := 0;
     config := cfg; notified := [] |}.

(** [get name()]: [this.config.name ?? 'unnamed'] *)
Definition name (cb : CircuitBreaker) : string :=
  match cfg_name (config cb) with Some n => n | None => "unnamed"%string end.

Definition getState (cb : CircuitBreaker) : CircuitBreakerState := state cb.

Definition getStats (cb : CircuitBreaker) : CircuitBreakerStats :=
  {| st_state := state cb;
     st_failures := failures cb;
     st_successes := successes cb;
     st_lastFailure := lastFailureTime cb;
     st_lastSuccess := lastSuccessTime cb;
     st_totalCalls := totalCalls cb;
     st_totalFailures := totalFailures cb;
     st_totalSuccesses := totalSuccesses cb |}.

Definition set_state (s : CircuitBreakerState) (cb : CircuitBreaker) :=
  mkBreaker s (failures cb) (successes cb) (lastFailureTime cb)
    (lastSuccessTime cb) (totalCalls cb) (totalFailures cb)
    (totalSuccesses cb) (config cb) (notified cb).

Definition set_failures (n : Z) (cb : CircuitBreaker) :=
  mkBreaker (state cb) n (successes cb) (lastFailureTime cb)
    (lastSuccessTime cb) (totalCalls cb) (totalFailures cb)
    (totalSuccesses cb) (config cb) (notified cb).

Definition set_successes (n : Z) (cb : CircuitBreaker) :=
  mkBreaker (state cb) (failures cb) n (lastFailureTime cb)
    (lastSuccessTime cb) (totalCalls cb) (totalFailures cb)
    (totalSuccesses cb) (config cb) (notified cb).

Definition notify (old new_ : CircuitBreakerState) (cb : CircuitBreaker) :=
  mkBreaker (state cb) (failures cb) (successes cb) (lastFailureTime cb)
    (lastSuccessTime cb) (totalCalls cb) (totalFailures cb)
    (totalSuccesses cb) (config cb)
    (notified cb ++ [(old, new_, getStats cb)]).

(** [private transition(newState)] *)
Definition transition (newState : CircuitBreakerState) (cb : CircuitBreaker)
  : CircuitBreaker :=
  let oldState := state cb in
  if state_eqb oldState newState then cb
  else
    let cb1 := set_state newState cb in
    let cb2 :=
      match newState with
      | CLOSED => set_successes 0 (set_failures 0 cb1)
      | HALF_OPEN => set_successes 0 cb1
      | OPEN => set_successes 0 cb1
      end in
    notify oldState newState cb2.

(** A JavaScript number or [Infinity]. *)
Inductive ExtNum := Fin (z : Z) | Infinity.

Definition ext_geb (a : ExtNum) (b : Z) : bool :=
  match a with Fin z => b <=? z | Infinity => true end.

(** [this.lastFailureTime ? now - this.lastFailureTime : Infinity]: the
    test is JavaScript truthiness, so both [null] and the number [0] take
    the [Infinity] branch. *)
Definition timeSinceFailure (now : Z) (cb : CircuitBreaker) : ExtNum :=
  match lastFailureTime cb with
  | Some t => if t =? 0 then Infinity else Fin (now - t)
  | None => Infinity
  end.

(** [isAllowed()]; [now] is the value of [Date.now()]. *)
Definition isAllowed (now : Z) (cb : CircuitBreaker) : bool * CircuitBreaker :=
  match state cb with
  | CLOSED => (true, cb)
  | OPEN =>
      if ext_geb (timeSinceFailure now cb) (resetTimeoutMs (config cb))
      then (true, transition HALF_OPEN cb)
      else (false, cb)
  | HALF_OPEN => (true, cb)
  end.

Definition bump_success (now : Z) (cb : CircuitBreaker) :=
  mkBreaker (state cb) (failures cb) (successes cb) (lastFailureTime cb)
    (Some now) (totalCalls cb + 1) (totalFailures cb)
    (totalSuccesses cb + 1) (config cb) (notified cb).

Definition bump_failure (now : Z) (cb : CircuitBreaker) :=
  mkBreaker (state cb) (failures cb) (successes cb) (Some now)
    (lastSuccessTime cb) (totalCalls cb + 1) (totalFailures cb + 1)
    (totalSuccesses cb) (config cb) (notified cb).

(** [recordSuccess()] *)
Definition recordSuccess (now : Z) (cb : CircuitBreaker) : CircuitBreaker :=
  let cb1 := bump_success now cb in
  match state cb1 with
  | HALF_OPEN =>
      let cb2 := set_successes (successes cb1 + 1) cb1 in
      if successThreshold (config cb2) <=? successes cb2
      then transition CLOSED cb2
      else cb2
  | CLOSED => set_failures 0 cb1
  | OPEN => cb1
  end.

(** [recordFailure(_error)] *)
Definition recordFailure (now : Z) (cb : CircuitBreaker) : CircuitBreaker :=
  let cb1 := bump_failure now cb in
  match state cb1 with
  | HALF_OPEN => transition OPEN cb1
  | CLOSED =>
      let cb2 := set_failures (failures cb1 + 1) cb1 in
      if failureThreshold (config cb2) <=? failures cb2
      then transition OPEN cb2
      else cb2
  | OPEN => cb1
  end.

(** [forceState(state)] and [reset()] *)
Definition forceState (s : CircuitBreakerState) (cb : CircuitBreaker) :=
  transition s cb.

Definition reset (cb : CircuitBreaker) : CircuitBreaker :=
  transition CLOSED (set_successes 0 (set_failures 0 cb)).

(** [class CircuitBreakerOpenError] *)
Record CircuitBreakerOpenError := mkOpenError {
  circuitName : string;
  stats : CircuitBreakerStats
}.

(** The three exits of [execute]: the wrapped operation's value, the
    wrapped operation's own error, or the breaker's fail-fast error. *)
Inductive ExecResult (T E : Type) :=
| Returned (v : T)
| Threw (e : E)
| ThrewOpen (e : CircuitBreakerOpenError).
Arguments Returned {T E} v.
Arguments Threw {T E} e.
Arguments ThrewOpen {T E} e.

Section Execute.
(** The wrapped operation [fn : () => Promise<T>] acts on a world [W]
    (everything outside the breaker); the clock is read from the world. *)
Context {W T E : Type}.
Variable clock : W -> Z.

(** [async execute(fn)] *)
Definition execute (fn : W -> (T + E) * W) (cb : CircuitBreaker) (w : W)
  : ExecResult T E * CircuitBreaker * W :=
  let '(allowed, cb1) := isAllowed (clock w) cb in
  if negb allowed then
    (ThrewOpen (mkOpenError (name cb1) (getStats cb1)), cb1, w)
  else
    let '(r, w') := fn w in
    match r with
    | inl result => (Returned result, recordSuccess (clock w') cb1, w')
    | inr error => (Threw error, recordFailure (clock w') cb1, w')
    end.
End Execute.

(** [recordFailure] called once per timestamp, oldest first. *)
Definition recordFailures (times : list Z) (cb : CircuitBreaker) : CircuitBreaker :=
  fold_left (fun c t => recordFailure t c) times cb.

(** Repeated admission checks, one per timestamp; the answers in order. *)
Fixpoint admissionChecks (times : list Z) (cb : CircuitBreaker)
  : list bool * CircuitBreaker :=
  match times with
  | [] => ([], cb)
  | t :: rest =>
      let '(a, cb1) := isAllowed t cb in
      let '(answers, cb2) := admissionChecks rest cb1 in
      (a :: answers, cb2)
  end.

(** The calls that change a breaker, as data, and a run of them from the
    constructor. *)
Inductive Op :=
| OpIsAllowed (now : Z)
| OpRecordSuccess (now : Z)
| OpRecordFailure (now : Z)
| OpForceState (s : CircuitBreakerState)
| OpReset.

Definition apply (cb : CircuitBreaker) (op : Op) : CircuitBreaker :=
  match op with
  | OpIsAllowed now => snd (isAllowed now cb)
  | OpRecordSuccess now => recordSuccess now cb
  | OpRecordFailure now => recordFailure now cb
  | OpForceState s => forceState s cb
  | OpReset => reset cb
  end.

Definition run (ops : list Op) (cb : CircuitBreaker) : CircuitBreaker :=
  fold_left apply ops cb.

End CircuitBreaker.

(* ===================================================================== *)
(** * Bounded queue ([src/resilience/bounded-queue.ts]) *)
(* ===================================================================== *)

Module BoundedQueue.

Inductive OverflowStrategy := reject | drop_oldest | drop_newest.

Inductive DropReason := overflow_oldest | overflow_newest.

(** [maxSize] is documented as the maximum number of items, but the
    constructor stores whatever number it is given: fractional, zero and
    negative ones included.  It is the rational that the double is. *)
Record BoundedQueueConfig := mkConfig {
  maxSize : Q;
  overflowStrategy : OverflowStrategy;
  cfg_name : option string
}.

Record QueueStats := mkStats {
  st_size : Z;
  st_maxSize : Q;
  st_totalEnqueued : Z;
  st_totalDequeued : Z;
  st_totalDropped : Z;
  st_totalRejected : Z;
  st_highWaterMarkHits : Z
}.

(** [class QueueFullError] *)
Record QueueFullError := mkQueueFullError {
  queueName : string;
  currentSize : Z;
  err_maxSize : Q
}.

(** [Math.floor(maxSize * 0.8)] and [Math.floor(maxSize * 0.2)]: the
    product is a double operation on the doubles [maxSize] and [0.8] (or
    [0.2]). *)
Definition highWaterMarkOf (maxSize : Q) : Z :=
  Qfloor (Double.fl (maxSize * Double.d0_8)).
Definition lowWaterMarkOf (maxSize : Q) : Z :=
  Qfloor (Double.fl (maxSize * Double.d0_2)).

Section Queue.
(** The item type, and which of its values is JavaScript's [undefined]
    (none of them for most instantiations). *)
Variable T : Type.
Variable is_undefined : T -> bool.

(** One entry per call of a configured callback. *)
Inductive Callback :=
| onDrop (item : T) (reason : DropReason)
| onHighWaterMark (size : Z) (maxSize : Q)
| onLowWaterMark (size : Z) (maxSize : Q).

Record BoundedQueue := mkQueue {
  queue : list T;
  config : BoundedQueueConfig;
  totalEnqueued : Z;
  totalDequeued : Z;
  totalDropped : Z;
  totalRejected : Z;
  highWaterMarkHits : Z;
  wasAboveHighWaterMark : bool;
  calls : list Callback
}.

(** [new BoundedQueue(config)], [overflowStrategy] already defaulted to
    ['reject'] by the caller of [mkConfig]. *)
Definition new (cfg : BoundedQueueConfig) : BoundedQueue :=
  {| queue := []; config := cfg; totalEnqueued := 0; totalDequeued := 0;
     totalDropped := 0; totalRejected := 0; highWaterMarkHits := 0;
     wasAboveHighWaterMark := false; calls := [] |}.

Definition name (q : BoundedQueue) : string :=
  match cfg_name (config q) with Some n => n | None => "unnamed"%string end.

(** [get size()]: [this.queue.length] *)
Definition size (q : BoundedQueue) : Z := Z.of_nat (length (queue q)).

Definition isEmpty (q : BoundedQueue) : bool := size q =? 0.

(** [get isFull()]: [this.queue.length >= this.config.maxSize], a
    comparison of numbers. *)
Definition isFull (q : BoundedQueue) : bool :=
  Qle_bool (maxSize (config q)) (inject_Z (size q)).

Definition getStats (q : BoundedQueue) : QueueStats :=
  {| st_size := size q;
     st_maxSize := maxSize (config q);
     st_totalEnqueued := totalEnqueued q;
     st_totalDequeued := totalDequeued q;
     st_totalDropped := totalDropped q;
     st_totalRejected := totalRejected q;
     st_highWaterMarkHits := highWaterMarkHits q |}.

Definition set_queue (items : list T) (q : BoundedQueue) :=
  mkQueue items (config q) (totalEnqueued q) (totalDequeued q)
    (totalDropped q) (totalRejected q) (highWaterMarkHits q)
    (wasAboveHighWaterMark q) (calls q).

Definition call (c : Callback) (q : BoundedQueue) :=
  mkQueue (queue q) (config q) (totalEnqueued q) (totalDequeued q)
    (totalDropped q) (totalRejected q) (highWaterMarkHits q)
    (wasAboveHighWaterMark q) (calls q ++ [c]).

Definition incr_totalEnqueued (q : BoundedQueue) :=
  mkQueue (queue q) (config q) (totalEnqueued q + 1) (totalDequeued q)
    (totalDropped q) (totalRejected q) (highWaterMarkHits q)
    (wasAboveHighWaterMark q) (calls q).

Definition incr_totalDequeued (q : BoundedQueue) :=
  mkQueue (queue q) (config q) (totalEnqueued q) (totalDequeued q + 1)
    (totalDropped q) (totalRejected q) (highWaterMarkHits q)
    (wasAboveHighWaterMark q) (calls q).

Definition incr_totalDropped (q : BoundedQueue) :=
  mkQueue (queue q) (config q) (totalEnqueued q) (totalDequeued q)
    (totalDropped q + 1) (totalRejected q) (highWaterMarkHits q)
    (wasAboveHighWaterMark q) (calls q).

Definition incr_totalRejected (q : BoundedQueue) :=
  mkQueue (queue q) (config q) (totalEnqueued q) (totalDequeued q)
    (totalDropped q) (totalRejected q + 1) (highWaterMarkHits q)
    (wasAboveHighWaterMark q) (calls q).

Definition incr_highWaterMarkHits (q : BoundedQueue) :=
  mkQueue (queue q) (config q) (totalEnqueued q) (totalDequeued q)
    (totalDropped q) (totalRejected q) (highWaterMarkHits q + 1)
    (wasAboveHighWaterMark q) (calls q).

Definition set_wasAbove (b : bool) (q : BoundedQueue) :=
  mkQueue (queue q) (config q) (totalEnqueued q) (totalDequeued q)
    (totalDropped q) (totalRejected q) (highWaterMarkHits q) b (calls q).

(** The low-water-mark check shared by [enqueue] and [dequeue]. *)
Definition checkLowWaterMark (lowWaterMark : Z) (q : BoundedQueue) :=
  if (size q <? lowWaterMark) && wasAboveHighWaterMark q
  then call (onLowWaterMark (size q) (maxSize (config q))) (set_wasAbove false q)
  else q.

(** The part of [enqueue] after the overflow [switch]: push, count, and
    the two water-mark checks. *)
Definition pushItem (highWaterMark lowWaterMark : Z) (item : T) (q : BoundedQueue)
  : BoundedQueue :=
  let q1 := incr_totalEnqueued (set_queue (queue q ++ [item]) q) in
  let q2 :=
    if (highWaterMark <=? size q1) && negb (wasAboveHighWaterMark q1)
    then call (onHighWaterMark (size q1) (maxSize (config q1)))
           (incr_highWaterMarkHits (set_wasAbove true q1))
    else q1 in
  checkLowWaterMark lowWaterMark q2.

(** [enqueue] either returns a boolean or throws [QueueFullError]. *)
Inductive EnqueueResult :=
| Enqueued (added : bool)
| ThrewQueueFull (e : QueueFullError).

(** [enqueue(item)] *)
Definition enqueue (item : T) (q : BoundedQueue) : EnqueueResult * BoundedQueue :=
  let highWaterMark := highWaterMarkOf (maxSize (config q)) in
  let lowWaterMark := lowWaterMarkOf (maxSize (config q)) in
  if Qle_bool (maxSize (config q)) (inject_Z (size q)) then
    match overflowStrategy (config q) with
    | reject =>
        (ThrewQueueFull (mkQueueFullError (name q) (size q) (maxSize (config q))),
         incr_totalRejected q)
    | drop_oldest =>
        let q1 :=
          match queue q with
          | [] => q
          | dropped :: rest =>
              let q' := set_queue rest q in
              if is_undefined dropped then q'
              else call (onDrop dropped overflow_oldest) (incr_totalDropped q')
          end in
        (Enqueued true, pushItem highWaterMark lowWaterMark item q1)
    | drop_newest =>
        (Enqueued false, call (onDrop item overflow_newest) (incr_totalDropped q))
    end
  else (Enqueued true, pushItem highWaterMark lowWaterMark item q).

(** [dequeue()]: [None] is the [undefined] of an empty queue. *)
Definition dequeue (q : BoundedQueue) : option T * BoundedQueue :=
  match queue q with
  | [] => (None, q)
  | item :: rest =>
      let q1 := set_queue rest q in
      if is_undefined item then (Some item, q1)
      else
        (Some item,
         checkLowWaterMark (lowWaterMarkOf (maxSize (config q1)))
           (incr_totalDequeued q1))
  end.

(** [peek()], [clear()], [toArray()] *)
Definition peek (q : BoundedQueue) : option T := head (queue q).

Definition clear (q : BoundedQueue) : list T * BoundedQueue :=
  (queue q, set_wasAbove false (set_queue [] q)).

Definition toArray (q : BoundedQueue) : list T := queue q.

(** [tryEnqueue(item)]: [enqueue] with the exception turned into [false]. *)
Definition tryEnqueue (item : T) (q : BoundedQueue) : bool * BoundedQueue :=
  match enqueue item q with
  | (Enqueued b, q') => (b, q')
  | (ThrewQueueFull _, q') => (false, q')
  end.

(** [n] successive calls of [dequeue]: what each returned, and the queue
    left behind. *)
Fixpoint dequeueMany (n : nat) (q : BoundedQueue) : list (option T) * BoundedQueue :=
  match n with
  | O => ([], q)
  | S n' =>
      let '(r, q1) := dequeue q in
      let '(rs, q2) := dequeueMany n' q1 in
      (r :: rs, q2)
  end.

(** The public operations that change the queue, as data, and a run of
    them. *)
Inductive Op :=
| OpEnqueue (item : T)
| OpTryEnqueue (item : T)
| OpDequeue
| OpClear.

Definition step (q : BoundedQueue) (op : Op) : BoundedQueue :=
  match op with
  | OpEnqueue item => snd (enqueue item q)
  | OpTryEnqueue item => snd (tryEnqueue item q)
  | OpDequeue => snd (dequeue q)
  | OpClear => snd (clear q)
  end.

Definition run (ops : list Op) (q : BoundedQueue) : BoundedQueue :=
  fold_left step ops q.

End Queue.

Arguments queue {T} _.
Arguments config {T} _.
Arguments totalEnqueued {T} _.
Arguments totalDequeued {T} _.
Arguments totalDropped {T} _.
Arguments totalRejected {T} _.
Arguments highWaterMarkHits {T} _.
Arguments wasAboveHighWaterMark {T} _.
Arguments calls {T} _.
Arguments new {T} cfg.
Arguments name {T} q.
Arguments size {T} q.
Arguments isFull {T} q.
Arguments isEmpty {T} q.
Arguments enqueue {T} is_undefined item q.
Arguments dequeue {T} is_undefined q.
Arguments tryEnqueue {T} is_undefined item q.
Arguments clear {T} q.
Arguments peek {T} q.
Arguments dequeueMany {T} is_undefined n q.
Arguments step {T} is_undefined q op.
Arguments run {T} is_undefined ops q.
Arguments OpEnqueue {T} item.
Arguments OpTryEnqueue {T} item.
Arguments OpDequeue {T}.
Arguments OpClear {T}.
Arguments onDrop {T} item reason.
Arguments onHighWaterMark {T} size maxSize.
Arguments onLowWaterMark {T} size maxSize.

End BoundedQueue.

(* ===================================================================== *)
(** * Retry with circuit breaker ([resilience/retry-with-circuit.ts], in
    the sources under [src/health/index.ts]) *)
(* ===================================================================== *)

Module Retry.

(** What an attempt can throw: the two error classes the composer tests
    with [instanceof], any other [Error] with its message, or a value that
    is no [Error] at all ([undefined] among them). *)
Inductive JsError :=
| TimeoutError (operationName : string) (timeoutMs : Z)
| CircuitBreakerOpenError (e : CircuitBreaker.CircuitBreakerOpenError)
| Error (message : string)
| NotAnError.

Definition isCircuitBreakerOpenError (e : JsError) : bool :=
  match e with CircuitBreakerOpenError _ => true | _ => false end.

(** [String.prototype.toLowerCase] on the ASCII letters, and
    [String.prototype.includes]. *)
Definition lowerAscii (c : ascii) : ascii :=
  let n := nat_of_ascii c in
  if ((65 <=? n) && (n <=? 90))%nat then ascii_of_nat (n + 32) else c.

Fixpoint toLowerCase (s : string) : string :=
  match s with
  | EmptyString => EmptyString
  | String c rest => String (lowerAscii c) (toLowerCase rest)
  end.

Fixpoint includes (needle hay : string) : bool :=
  if String.prefix needle hay then true
  else match hay with
       | EmptyString => false
       | String _ rest => includes needle rest
       end.

(** [isDefaultRetryable(error)] *)
Definition isDefaultRetryable (error : JsError) : bool :=
  match error with
  | TimeoutError _ _ => false
  | CircuitBreakerOpenError _ => false
  | Error message =>
      let msg := toLowerCase message in
      if includes "unauthorized" msg || includes "forbidden" msg then false
      else if includes "invalid" msg || includes "validation" msg then false
      else if includes "not found" msg || includes "404" msg then false
      else true
  | NotAnError => true
  end.

(** A retry that is listed to [onRetry]. *)
Record RetryInfo := mkRetryInfo {
  ri_attempt : Z;
  ri_maxAttempts : Q;
  ri_delayMs : Q;
  ri_error : JsError;
  ri_elapsedMs : Z
}.

(** The arguments of a breaker's [onStateChange]: the old state, the new
    one and the statistics, as the breaker model logs them. *)
Definition StateChange : Type :=
  CircuitBreaker.CircuitBreakerState * CircuitBreaker.CircuitBreakerState
  * CircuitBreaker.CircuitBreakerStats.

(** What happens during one resilient call, in order: each use of the
    breaker, each invocation of the wrapped operation, and each optional
    call of a callback that is reached (the callback, when one is
    configured, then runs). *)
Inductive Event :=
| AdmissionChecked (allowed : bool)
| Attempted (attempt : Z) (succeeded : bool)
| OnRetryCalled (info : RetryInfo)
| SuccessRecorded
| FailureRecorded
| OnSuccessCalled (elapsedMs : Z)
| OnFailureCalled (error : JsError) (attempts : Q) (elapsedMs : Z).

(** [Math.max(0, Math.round(x))]; [Math.round] is exact, halves going
    up. *)
Definition roundNonNeg (x : Q) : Q := inject_Z (Z.max 0 (Qfloor (x + (1 # 2))%Q)).

(** [applyJitter(delayMs, jitter)], [random] being the value of
    [Math.random()]; each arithmetic operation rounds to a double. *)
Definition applyJitter (random delayMs jitter : Q) : Q :=
  if Qle_bool jitter 0 then delayMs
  else
    let offset := Double.fl (Double.fl (Double.fl (random * 2) - 1) * jitter) in
    roundNonNeg (Double.fl (delayMs * Double.fl (1 + offset))).

Section Calls.
(** The world [W] is everything outside the composer: the clock, the
    random source, whatever the wrapped operation and the callbacks touch,
    and what runs while the caller sleeps. *)
Context {W T : Type}.

(** A callback acts on the world and either returns ([None]) or throws. *)
Definition Callback (A : Type) : Type := A -> W -> option JsError * W.

(** [callback?.(a)] *)
Definition callOptional {A : Type} (callback : option (Callback A)) (a : A) (w : W)
  : option JsError * W :=
  match callback with
  | Some f => f a w
  | None => (None, w)
  end.

Definition neverThrows {A : Type} (callback : option (Callback A)) : Prop :=
  forall (a : A) (w : W), fst (callOptional callback a w) = None.

(** [Partial<RetryConfig>]; the numbers are whatever the caller passes.
    [isRetryable] returns its answer or throws. *)
Record PartialRetryConfig := mkPartialRetry {
  p_maxAttempts : option Q;
  p_initialDelayMs : option Q;
  p_maxDelayMs : option Q;
  p_backoffMultiplier : option Q;
  p_jitter : option Q;
  p_isRetryable : option (JsError -> W -> (bool + JsError) * W);
  p_onRetry : option (Callback RetryInfo)
}.

Record RetryConfig := mkRetry {
  maxAttempts : Q;
  initialDelayMs : Q;
  maxDelayMs : Q;
  backoffMultiplier : Q;
  jitter : Q;
  isRetryable : option (JsError -> W -> (bool + JsError) * W);
  onRetry : option (Callback RetryInfo)
}.

(** [DEFAULT_RETRY_CONFIG] *)
Definition DEFAULT_RETRY_CONFIG : RetryConfig :=
  {| maxAttempts := 3; initialDelayMs := 300; maxDelayMs := 30000;
     backoffMultiplier := 2; jitter := Double.d0_1;
     isRetryable := None; onRetry := None |}.

Definition noRetryOverrides : PartialRetryConfig :=
  mkPartialRetry None None None None None None None.

(** [{ ...DEFAULT_RETRY_CONFIG, ...config }] *)
Definition mergeRetry (config : PartialRetryConfig) : RetryConfig :=
  {| maxAttempts := default (maxAttempts DEFAULT_RETRY_CONFIG) (p_maxAttempts config);
     initialDelayMs := default (initialDelayMs DEFAULT_RETRY_CONFIG) (p_initialDelayMs config);
     maxDelayMs := default (maxDelayMs DEFAULT_RETRY_CONFIG) (p_maxDelayMs config);
     backoffMultiplier :=
       default (backoffMultiplier DEFAULT_RETRY_CONFIG) (p_backoffMultiplier config);
     jitter := default (jitter DEFAULT_RETRY_CONFIG) (p_jitter config);
     isRetryable := p_isRetryable config;
     onRetry := p_onRetry config |}.

(** [Partial<CircuitBreakerConfig>], and the three values of
    [config.circuitBreaker]: [null] disables the breaker, an object or
    [undefined] (the empty overrides) enables it. *)
Record PartialBreakerConfig := mkPartialBreaker {
  p_failureThreshold : option Z;
  p_resetTimeoutMs : option Z;
  p_successThreshold : option Z;
  p_name : option string;
  p_onStateChange : option (Callback StateChange)
}.

Definition noBreakerOverrides : PartialBreakerConfig :=
  mkPartialBreaker None None None None None.

Inductive BreakerSetting :=
| BreakerDisabled
| BreakerEnabled (overrides : PartialBreakerConfig).

(** [onSuccess(elapsedMs)] and [onFailure(error, attempts, elapsedMs)] *)
Record ResilientCallConfig := mkResilient {
  name : string;
  retry : option PartialRetryConfig;
  circuitBreaker : BreakerSetting;
  timeoutMs : option Z;
  onSuccess : option (Callback Z);
  onFailure : option (Callback (JsError * Q * Z))
}.

(** [new CircuitBreaker({ name: config.name, ...config.circuitBreaker })],
    merged over the breaker's [DEFAULT_CONFIG]. *)
Definition breakerConfig (name : string) (overrides : PartialBreakerConfig)
  : CircuitBreaker.CircuitBreakerConfig :=
  let d := CircuitBreaker.DEFAULT_CONFIG in
  {| CircuitBreaker.failureThreshold :=
       default (CircuitBreaker.failureThreshold d) (p_failureThreshold overrides);
     CircuitBreaker.resetTimeoutMs :=
       default (CircuitBreaker.resetTimeoutMs d) (p_resetTimeoutMs overrides);
     CircuitBreaker.successThreshold :=
       default (CircuitBreaker.successThreshold d) (p_successThreshold overrides);
     CircuitBreaker.cfg_name := Some (default name (p_name overrides)) |}.

(** A cached breaker: the object of the breaker model, and the
    [onStateChange] callback of the configuration it was constructed
    with. *)
Record Circuit := mkCircuit {
  breaker : CircuitBreaker.CircuitBreaker;
  onStateChange : option (Callback StateChange)
}.

Definition set_breaker (b : CircuitBreaker.CircuitBreaker) (c : Circuit) : Circuit :=
  mkCircuit b (onStateChange c).

(** The module-level [circuitBreakers] map. *)
Definition Registry := gmap string Circuit.

(** [circuitBreakers.get(config.name)], or the breaker created when there
    is none. *)
Definition circuitFor (config : ResilientCallConfig) (overrides : PartialBreakerConfig)
  (circuitBreakers : Registry) : Circuit :=
  match circuitBreakers !! name config with
  | Some c => c
  | None =>
      mkCircuit (CircuitBreaker.new (breakerConfig (name config) overrides))
        (p_onStateChange overrides)
  end.

(** The breaker object is mutated in place; here the updated object is
    written back under its key. *)
Definition store (key : string) (circuit : option Circuit) (circuitBreakers : Registry)
  : Registry :=
  match circuit with
  | Some c => <[key := c]> circuitBreakers
  | None => circuitBreakers
  end.

(** The [onStateChange] call of the breaker method that took the breaker
    of [c] to [after].  A method makes at most one transition, as its last
    step, and the callback is the last step of the transition: when the
    callback throws, the method throws and the breaker is [after]. *)
Definition notifyStateChange (c : Circuit) (after : CircuitBreaker.CircuitBreaker) (w : W)
  : option JsError * W :=
  match skipn (length (CircuitBreaker.notified (breaker c)))
              (CircuitBreaker.notified after) with
  | change :: _ => callOptional (onStateChange c) change w
  | [] => (None, w)
  end.

Variable clock : W -> Z.
Variable random : W -> Q * W.
Variable sleep : Q -> W -> W.
(** [withTimeout] is the race of an attempt against a timer
    ([resilience/timeout-wrapper.ts]); which side wins is decided by the
    world, so it is shared here as an operation on it. *)
Variable withTimeout : (W -> (T + JsError) * W) -> Z -> string -> W -> (T + JsError) * W.

(** The body of the [for] loop of [retryAsync], from attempt number
    [attempt] on; [remaining] counts the iterations left.  The predicate
    is only called when the attempt is not the last; an exception thrown
    by the predicate or by [onRetry] leaves the loop. *)
Fixpoint retryLoop (remaining : nat) (attempt : Z) (fn : W -> (T + JsError) * W)
  (opts : RetryConfig) (startTime : Z) (lastError : JsError)
  (w : W) (log : list Event) : (T + JsError) * W * list Event :=
  match remaining with
  | O => (inr lastError, w, log)
  | S remaining' =>
      let '(r, w1) := fn w in
      match r with
      | inl result => (inl result, w1, log ++ [Attempted attempt true])
      | inr error =>
          let log1 := log ++ [Attempted attempt false] in
          let isLastAttempt := Qle_bool (maxAttempts opts) (inject_Z attempt) in
          let '(shouldRetry, w2) :=
            if isLastAttempt then (inl false, w1)
            else
              match isRetryable opts with
              | Some predicate => predicate error w1
              | None => (inl (isDefaultRetryable error), w1)
              end in
          match shouldRetry with
          | inr thrown => (inr thrown, w2, log1)
          | inl false => (inr error, w2, log1)
          | inl true =>
              let delay0 :=
                Double.fl (initialDelayMs opts
                           * Double.fl (Qpower (backoffMultiplier opts) (attempt - 1))) in
              let delay1 := Qmin delay0 (maxDelayMs opts) in
              let '(delayMs, w3) :=
                if Qle_bool (jitter opts) 0 then (delay1, w2)
                else let '(rnd, w') := random w2 in
                     (applyJitter rnd delay1 (jitter opts), w') in
              let info := mkRetryInfo attempt (maxAttempts opts) delayMs error
                            (clock w3 - startTime) in
              let log2 := log1 ++ [OnRetryCalled info] in
              let '(thrown, w4) := callOptional (onRetry opts) info w3 in
              match thrown with
              | Some e => (inr e, w4, log2)
              | None =>
                  retryLoop remaining' (attempt + 1) fn opts startTime error
                    (sleep delayMs w4) log2
              end
          end
      end
  end.

(** [retryAsync(fn, config)]: the loop runs for [attempt] from 1 while
    [attempt <= maxAttempts]. *)
Definition retryAsync (fn : W -> (T + JsError) * W) (config : option PartialRetryConfig)
  (w : W) (log : list Event) : (T + JsError) * W * list Event :=
  let opts := mergeRetry (default noRetryOverrides config) in
  let startTime := clock w in
  retryLoop (Z.to_nat (Qfloor (maxAttempts opts))) 1 fn opts startTime NotAnError w log.

(** The operation handed to [retryAsync]: [fn], raced against the timer
    when [timeoutMs] is configured. *)
Definition attemptFn (fn : W -> (T + JsError) * W) (config : ResilientCallConfig)
  : W -> (T + JsError) * W :=
  match timeoutMs config with
  | Some t => withTimeout fn t (name config)
  | None => fn
  end.

(** [circuitBreaker?.recordSuccess()] *)
Definition recordSuccessOn (circuit : option Circuit) (w : W) (log : list Event)
  : option JsError * option Circuit * W * list Event :=
  match circuit with
  | Some c =>
      let b := CircuitBreaker.recordSuccess (clock w) (breaker c) in
      let '(thrown, w1) := notifyStateChange c b w in
      (thrown, Some (set_breaker b c), w1, log ++ [SuccessRecorded])
  | None => (None, None, w, log)
  end.

(** [circuitBreaker?.recordFailure(error)] *)
Definition recordFailureOn (circuit : option Circuit) (w : W) (log : list Event)
  : option JsError * option Circuit * W * list Event :=
  match circuit with
  | Some c =>
      let b := CircuitBreaker.recordFailure (clock w) (breaker c) in
      let '(thrown, w1) := notifyStateChange c b w in
      (thrown, Some (set_breaker b c), w1, log ++ [FailureRecorded])
  | None => (None, None, w, log)
  end.

(** The [catch] block of [resilientCall], entered with [error]; what it
    returns is what the call throws. *)
Definition catchBlock (config : ResilientCallConfig) (startTime : Z)
  (circuit : option Circuit) (error : JsError) (w : W) (log : list Event)
  : JsError * option Circuit * W * list Event :=
  let '(thrown, circuit1, w1, log1) :=
    if isCircuitBreakerOpenError error then (None, circuit, w, log)
    else recordFailureOn circuit w log in
  match thrown with
  | Some e => (e, circuit1, w1, log1)
  | None =>
      let attempts :=
        default (maxAttempts DEFAULT_RETRY_CONFIG)
          (p_maxAttempts (default noRetryOverrides (retry config))) in
      let elapsedMs := clock w1 - startTime in
      let '(thrown1, w2) :=
        callOptional (onFailure config) (error, attempts, elapsedMs) w1 in
      (default error thrown1, circuit1, w2,
       log1 ++ [OnFailureCalled error attempts elapsedMs])
  end.

(** The [try] statement of [resilientCall]: the [try] block holds the
    retry loop, [recordSuccess] and [onSuccess], so an exception of any of
    the three enters the [catch] block. *)
Definition tryBlock (fn : W -> (T + JsError) * W) (config : ResilientCallConfig)
  (startTime : Z) (circuit : option Circuit) (w : W) (log : list Event)
  : (T + JsError) * option Circuit * W * list Event :=
  let failed '(e, circuit', w', log') := (inr e, circuit', w', log') in
  let '(r, w1, log1) := retryAsync (attemptFn fn config) (retry config) w log in
  match r with
  | inr error => failed (catchBlock config startTime circuit error w1 log1)
  | inl result =>
      let '(thrown, circuit1, w2, log2) := recordSuccessOn circuit w1 log1 in
      match thrown with
      | Some e => failed (catchBlock config startTime circuit1 e w2 log2)
      | None =>
          let elapsedMs := clock w2 - startTime in
          let '(thrown1, w3) := callOptional (onSuccess config) elapsedMs w2 in
          let log3 := log2 ++ [OnSuccessCalled elapsedMs] in
          match thrown1 with
          | Some e => failed (catchBlock config startTime circuit1 e w3 log3)
          | None => (inl result, circuit1, w3, log3)
          end
      end
  end.

(** [resilientCall(fn, config)].  The [retryConfig] it builds wraps
    [config.retry.onRetry] in a function that calls it, which behaves as
    the callback itself.  The admission check stands before the [try]
    statement: an exception of its [onStateChange] leaves the call at
    once. *)
Definition resilientCall (fn : W -> (T + JsError) * W) (config : ResilientCallConfig)
  (circuitBreakers : Registry) (w : W)
  : (T + JsError) * Registry * W * list Event :=
  let startTime := clock w in
  match circuitBreaker config with
  | BreakerDisabled =>
      let '(r, _, w', log) := tryBlock fn config startTime None w [] in
      (r, circuitBreakers, w', log)
  | BreakerEnabled overrides =>
      let c := circuitFor config overrides circuitBreakers in
      let '(allowed, b) := CircuitBreaker.isAllowed (clock w) (breaker c) in
      let c1 := set_breaker b c in
      let '(thrown, w0) := notifyStateChange c b w in
      match thrown with
      | Some e =>
          (inr e, <[name config := c1]> circuitBreakers, w0, [AdmissionChecked allowed])
      | None =>
          if negb allowed then
            (inr (CircuitBreakerOpenError
                    (CircuitBreaker.mkOpenError (name config) (CircuitBreaker.getStats b))),
             <[name config := c1]> circuitBreakers, w0, [AdmissionChecked false])
          else
            let '(r, c2, w', log) :=
              tryBlock fn config startTime (Some c1) w0 [AdmissionChecked true] in
            (r, store (name config) c2 (<[name config := c1]> circuitBreakers), w', log)
      end
  end.

End Calls.

Arguments PartialRetryConfig W : clear implicits.
Arguments RetryConfig W : clear implicits.
Arguments PartialBreakerConfig W : clear implicits.
Arguments BreakerSetting W : clear implicits.
Arguments ResilientCallConfig W : clear implicits.
Arguments Circuit W : clear implicits.
Arguments Registry W : clear implicits.

(** Reading a log. *)
Definition isAdmission (e : Event) : bool :=
  match e with AdmissionChecked _ => true | _ => false end.
Definition isAttempt (e : Event) : bool :=
  match e with Attempted _ _ => true | _ => false end.
Definition isFailedAttempt (e : Event) : bool :=
  match e with Attempted _ false => true | _ => false end.
Definition isRecord (e : Event) : bool :=
  match e with SuccessRecorded | FailureRecorded => true | _ => false end.
Definition usesBreaker (e : Event) : bool := isAdmission e || isRecord e.

Definition count (p : Event -> bool) (log : list Event) : nat :=
  length (List.filter p log).

(** The reading of a log under which every attempt has its own admission
    check just before it and its own recorded outcome just after it. *)
Fixpoint eachAttemptCheckedAndRecorded (log : list Event) : bool :=
  match log with
  | [] => true
  | AdmissionChecked true :: Attempted _ true :: SuccessRecorded :: rest =>
      eachAttemptCheckedAndRecorded rest
  | AdmissionChecked true :: Attempted _ false :: FailureRecorded :: rest =>
      eachAttemptCheckedAndRecorded rest
  | AdmissionChecked false :: rest => eachAttemptCheckedAndRecorded rest
  | Attempted _ _ :: _ => false
  | AdmissionChecked true :: _ => false
  | _ :: rest => eachAttemptCheckedAndRecorded rest
  end.

(** A sample run: the world is the number of invocations made so far, and
    the wrapped operation fails on its first [failuresFirst] invocations,
    then succeeds. *)
Definition flaky (failuresFirst : nat) (calls : nat) : (unit + JsError) * nat :=
  (if (calls <? failuresFirst)%nat then inr (Error "connection reset") else inl tt,
   S calls).

Definition sampleConfig : ResilientCallConfig nat :=
  {| name := "api"; retry := None;
     circuitBreaker := BreakerEnabled noBreakerOverrides; timeoutMs := None;
     onSuccess := None; onFailure := None |}.

Definition sampleRun (failuresFirst : nat) (config : ResilientCallConfig nat)
  : (unit + JsError) * Registry nat * nat * list Event :=
  resilientCall (fun calls => 1000 + Z.of_nat calls) (fun w => ((1 # 2)%Q, w))
    (fun _ w => w) (fun attempt _ _ => attempt)
    (flaky failuresFirst) config ∅ 0%nat.

Definition sampleCall (failuresFirst : nat)
  : (unit + JsError) * Registry nat * nat * list Event :=
  sampleRun failuresFirst sampleConfig.

(** The same call with an [onSuccess] that throws. *)
Definition throwingOnSuccessConfig : ResilientCallConfig nat :=
  {| name := "api"; retry := None;
     circuitBreaker := BreakerEnabled noBreakerOverrides; timeoutMs := None;
     onSuccess := Some (fun _ w => (Some (Error "onSuccess failed"), w));
     onFailure := None |}.

End Retry.

(* ===================================================================== *)
(** * Heartbeat monitor ([src/supervisor/heartbeat-monitor.ts]) *)
(* ===================================================================== *)

Module HeartbeatMonitor.

Record HeartbeatConfig := mkConfig {
  intervalMs : Z;
  timeoutMs : Z;
  missedThreshold : Z
}.

(** [DEFAULT_CONFIG] *)
Definition DEFAULT_CONFIG : HeartbeatConfig :=
  {| intervalMs := 5000; timeoutMs := 15000; missedThreshold := 3 |}.

(** The fields of [HeartbeatData] the supervisor reads; [memory] is kept
    as its [heapUsed] entry. *)
Record HeartbeatData := mkData {
  timestamp : Z;
  pid : Z;
  heapUsed : Z;
  uptime : Z
}.

Record HeartbeatStats := mkStats {
  st_isAlive : bool;
  st_lastHeartbeat : option Z;
  st_missedCount : Z;
  st_totalReceived : Z;
  st_totalMissed : Z;
  st_averageIntervalMs : Z;
  st_lastData : option HeartbeatData
}.

(** One entry per call of a configured callback. *)
Inductive Callback :=
| onHeartbeat (data : HeartbeatData)
| onMissed (missed : Z) (lastHeartbeat : option Z)
| onDead (missedCount : Z) (lastHeartbeat : option Z).

(** [checkTimer] records whether the [setInterval] handle is set. *)
Record HeartbeatMonitor := mkMonitor {
  config : HeartbeatConfig;
  lastHeartbeat : option Z;
  lastData : option HeartbeatData;
  missedCount : Z;
  totalReceived : Z;
  totalMissed : Z;
  intervals : list Z;
  checkTimer : bool;
  isAlive : bool;
  started : bool;
  calls : list Callback
}.

Definition new (cfg : HeartbeatConfig) : HeartbeatMonitor :=
  {| config := cfg; lastHeartbeat := None; lastData := None;
     missedCount := 0; totalReceived := 0; totalMissed := 0;
     intervals := []; checkTimer := false; isAlive := false;
     started := false; calls := [] |}.

(** [start()] *)
Definition start (m : HeartbeatMonitor) : HeartbeatMonitor :=
  if started m then m
  else
    mkMonitor (config m) (lastHeartbeat m) (lastData m) 0 (totalReceived m)
      (totalMissed m) (intervals m) true true true (calls m).

(** [stop()] *)
Definition stop (m : HeartbeatMonitor) : HeartbeatMonitor :=
  if negb (started m) then m
  else
    mkMonitor (config m) (lastHeartbeat m) (lastData m) (missedCount m)
      (totalReceived m) (totalMissed m) (intervals m) false (isAlive m)
      false (calls m).

(** [this.intervals.push(interval)], keeping the last 100. *)
Definition pushInterval (interval : Z) (l : list Z) : list Z :=
  let l' := l ++ [interval] in
  if (100 <? length l')%nat then tl l' else l'.

(** [recordHeartbeat(data)] *)
Definition recordHeartbeat (now : Z) (data : HeartbeatData) (m : HeartbeatMonitor)
  : HeartbeatMonitor :=
  let intervals' :=
    match lastHeartbeat m with
    | Some last => pushInterval (now - last) (intervals m)
    | None => intervals m
    end in
  mkMonitor (config m) (Some now) (Some data) 0 (totalReceived m + 1)
    (totalMissed m) intervals' (checkTimer m) true (started m)
    (calls m ++ [onHeartbeat data]).

(** [private checkHeartbeat()], the body of the periodic timer.  In the
    branch for [lastHeartbeat === null] the source counts the miss and
    logs a warning; it calls no callback and tests no threshold there. *)
Definition checkHeartbeat (now : Z) (m : HeartbeatMonitor) : HeartbeatMonitor :=
  if negb (started m) then m
  else
    match lastHeartbeat m with
    | None =>
        mkMonitor (config m) (lastHeartbeat m) (lastData m) (missedCount m + 1)
          (totalReceived m) (totalMissed m + 1) (intervals m) (checkTimer m)
          (isAlive m) (started m) (calls m)
    | Some last =>
        let timeSinceLastHeartbeat := now - last in
        if timeoutMs (config m) <? timeSinceLastHeartbeat then
          let missed := missedCount m + 1 in
          let calls1 := calls m ++ [onMissed missed (lastHeartbeat m)] in
          let calls2 :=
            if missedThreshold (config m) <=? missed
            then calls1 ++ [onDead missed (lastHeartbeat m)]
            else calls1 in
          mkMonitor (config m) (lastHeartbeat m) (lastData m) missed
            (totalReceived m) (totalMissed m + 1) (intervals m) (checkTimer m)
            false (started m) calls2
        else m
    end.

(** [Math.round(avgInterval)] of the mean of whole intervals. *)
Definition averageInterval (l : list Z) : Z :=
  match l with
  | [] => 0
  | _ => (2 * fold_left Z.add l 0 + Z.of_nat (length l)) / (2 * Z.of_nat (length l))
  end.

Definition getStats (m : HeartbeatMonitor) : HeartbeatStats :=
  {| st_isAlive := isAlive m;
     st_lastHeartbeat := lastHeartbeat m;
     st_missedCount := missedCount m;
     st_totalReceived := totalReceived m;
     st_totalMissed := totalMissed m;
     st_averageIntervalMs := averageInterval (intervals m);
     st_lastData := lastData m |}.

Definition isWorkerAlive (m : HeartbeatMonitor) : bool := isAlive m.

(** [reset()] *)
Definition reset (m : HeartbeatMonitor) : HeartbeatMonitor :=
  mkMonitor (config m) None None 0 (totalReceived m) (totalMissed m) []
    (checkTimer m) false (started m) (calls m).

(** The periodic timer of [start()]: [n] successive firings of
    [setInterval(checkHeartbeat, intervalMs)], the first one [intervalMs]
    after [from], with no heartbeat recorded in between. *)
Fixpoint silentChecks (n : nat) (from : Z) (m : HeartbeatMonitor) : HeartbeatMonitor :=
  match n with
  | O => m
  | S n' =>
      let now := from + intervalMs (config m) in
      silentChecks n' now (checkHeartbeat now m)
  end.

(** The same checks given by their times, and which of them come more
    than [timeoutMs] after a heartbeat recorded at [last]. *)
Definition checksAt (times : list Z) (m : HeartbeatMonitor) : HeartbeatMonitor :=
  fold_left (fun acc now => checkHeartbeat now acc) times m.

Fixpoint checkTimes (n : nat) (from interval : Z) : list Z :=
  match n with
  | O => []
  | S n' => (from + interval) :: checkTimes n' (from + interval) interval
  end.

Definition isLate (timeout last now : Z) : bool := timeout <? now - last.

Definition isDead (c : Callback) : bool :=
  match c with onDead _ _ => true | _ => false end.

(** How many times the "dead" callback has been invoked. *)
Definition deadCalls (m : HeartbeatMonitor) : nat :=
  length (List.filter isDead (calls m)).

(** A worker that sends one heartbeat at 1 s, before the monitor is
    started at 2 s, and none afterwards. *)
Definition sampleData : HeartbeatData :=
  {| timestamp := 1000; pid := 4242; heapUsed := 50000000; uptime := 1 |}.

Definition heardOnce : HeartbeatMonitor :=
  start (recordHeartbeat 1000 sampleData (new DEFAULT_CONFIG)).

End HeartbeatMonitor.

(* ===================================================================== *)
(** * Worker manager ([src/supervisor/worker-manager.ts]) *)
(* ===================================================================== *)

Module WorkerManager.

Inductive WorkerState := stopped | starting | running | stopping | crashed | hung.

Inductive Signal := SIGTERM | SIGKILL.

Record WorkerConfig := mkConfig {
  maxRestarts : Z;
  restartDelayMs : Z;
  maxRestartDelayMs : Z;
  backoffMultiplier : Z;
  restartWindowMs : Z;
  startupTimeoutMs : option Z;
  heartbeat : HeartbeatMonitor.HeartbeatConfig
}.

(** [DEFAULT_CONFIG], with the heartbeat defaults of the constructor. *)
Definition DEFAULT_CONFIG : WorkerConfig :=
  {| maxRestarts := 10; restartDelayMs := 1000; maxRestartDelayMs := 30000;
     backoffMultiplier := 2; restartWindowMs := 60000; startupTimeoutMs := None;
     heartbeat := HeartbeatMonitor.DEFAULT_CONFIG |}.

(** [WorkerEvents], one constructor per event name. *)
Inductive Event :=
| ev_started (pid : Z)
| ev_stopped (code : option Z) (signal : option string)
| ev_crashed (code : option Z) (signal : option string)
| ev_hung (missedHeartbeats : Z)
| ev_restarting (attempt delayMs : Z)
| ev_max_restarts (restartCount : Z)
| ev_message
| ev_heartbeat (data : HeartbeatMonitor.HeartbeatData).

(** The private fields of the class; [worker] holds the pid of the child
    process behind the handle, [restartTimer] the id of the timer behind
    the handle, [emitted] the events emitted so far. *)
Record WorkerManager := mkManager {
  config : WorkerConfig;
  worker : option Z;
  state : WorkerState;
  startedAt : option Z;
  restartCount : Z;
  consecutiveRestarts : Z;
  lastRestartAt : option Z;
  lastExitCode : option Z;
  lastExitSignal : option string;
  restartTimer : option nat;
  heartbeatMonitor : HeartbeatMonitor.HeartbeatMonitor;
  shouldRestart : bool;
  emitted : list Event
}.

(** Who awaits [spawnWorker]: [start()], or the restart timer's callback. *)
Inductive Spawner := byStart | byRestartTimer.

(** The Node.js runtime around the manager: the children forked so far,
    the signals and messages sent to them, the restart timers set and
    neither fired nor cleared, and the [async] calls that are suspended:
    each [spawnWorker] inside [waitForReady] for its child, [stop] inside
    its [Promise.race] for a child.  [stopTimeouts] counts the timers set by
    [stop], which nothing clears. *)
Record Runtime := mkRuntime {
  forked : list Z;
  kills : list (Z * Signal);
  shutdownsSent : list Z;
  pendingRestarts : list (nat * Z);
  nextTimerId : nat;
  stopTimeouts : nat;
  awaitingReady : list (Spawner * Z);
  awaitingExit : option Z
}.

Record System := mkSystem {
  mgr : WorkerManager;
  rt : Runtime
}.

(** [new WorkerManager(config)] in a fresh runtime. *)
Definition new (cfg : WorkerConfig) : System :=
  {| mgr := {| config := cfg; worker := None; state := stopped; startedAt := None;
               restartCount := 0; consecutiveRestarts := 0; lastRestartAt := None;
               lastExitCode := None; lastExitSignal := None; restartTimer := None;
               heartbeatMonitor := HeartbeatMonitor.new (heartbeat cfg);
               shouldRestart := true; emitted := [] |};
     rt := {| forked := []; kills := []; shutdownsSent := [];
              pendingRestarts := []; nextTimerId := 0%nat; stopTimeouts := 0%nat;
              awaitingReady := []; awaitingExit := None |} |}.

(** Field updates. *)
Definition set_worker (v : option Z) (m : WorkerManager) :=
  mkManager (config m) v (state m) (startedAt m) (restartCount m)
    (consecutiveRestarts m) (lastRestartAt m) (lastExitCode m) (lastExitSignal m)
    (restartTimer m) (heartbeatMonitor m) (shouldRestart m) (emitted m).

Definition set_state (v : WorkerState) (m : WorkerManager) :=
  mkManager (config m) (worker m) v (startedAt m) (restartCount m)
    (consecutiveRestarts m) (lastRestartAt m) (lastExitCode m) (lastExitSignal m)
    (restartTimer m) (heartbeatMonitor m) (shouldRestart m) (emitted m).

Definition set_startedAt (v : option Z) (m : WorkerManager) :=
  mkManager (config m) (worker m) (state m) v (restartCount m)
    (consecutiveRestarts m) (lastRestartAt m) (lastExitCode m) (lastExitSignal m)
    (restartTimer m) (heartbeatMonitor m) (shouldRestart m) (emitted m).

Definition set_counts (total consecutive : Z) (m : WorkerManager) :=
  mkManager (config m) (worker m) (state m) (startedAt m) total
    consecutive (lastRestartAt m) (lastExitCode m) (lastExitSignal m)
    (restartTimer m) (heartbeatMonitor m) (shouldRestart m) (emitted m).

Definition set_lastRestartAt (v : option Z) (m : WorkerManager) :=
  mkManager (config m) (worker m) (state m) (startedAt m) (restartCount m)
    (consecutiveRestarts m) v (lastExitCode m) (lastExitSignal m)
    (restartTimer m) (heartbeatMonitor m) (shouldRestart m) (emitted m).

Definition set_lastExit (code : option Z) (signal : option string) (m : WorkerManager) :=
  mkManager (config m) (worker m) (state m) (startedAt m) (restartCount m)
    (consecutiveRestarts m) (lastRestartAt m) code signal
    (restartTimer m) (heartbeatMonitor m) (shouldRestart m) (emitted m).

Definition set_restartTimer (v : option nat) (m : WorkerManager) :=
  mkManager (config m) (worker m) (state m) (startedAt m) (restartCount m)
    (consecutiveRestarts m) (lastRestartAt m) (lastExitCode m) (lastExitSignal m)
    v (heartbeatMonitor m) (shouldRestart m) (emitted m).

Definition set_heartbeatMonitor (v : HeartbeatMonitor.HeartbeatMonitor) (m : WorkerManager) :=
  mkManager (config m) (worker m) (state m) (startedAt m) (restartCount m)
    (consecutiveRestarts m) (lastRestartAt m) (lastExitCode m) (lastExitSignal m)
    (restartTimer m) v (shouldRestart m) (emitted m).

Definition set_shouldRestart (v : bool) (m : WorkerManager) :=
  mkManager (config m) (worker m) (state m) (startedAt m) (restartCount m)
    (consecutiveRestarts m) (lastRestartAt m) (lastExitCode m) (lastExitSignal m)
    (restartTimer m) (heartbeatMonitor m) v (emitted m).

Definition emit (e : Event) (m : WorkerManager) :=
  mkManager (config m) (worker m) (state m) (startedAt m) (restartCount m)
    (consecutiveRestarts m) (lastRestartAt m) (lastExitCode m) (lastExitSignal m)
    (restartTimer m) (heartbeatMonitor m) (shouldRestart m) (emitted m ++ [e]).

Definition add_forked (p : Z) (r : Runtime) :=
  mkRuntime (forked r ++ [p]) (kills r) (shutdownsSent r) (pendingRestarts r)
    (nextTimerId r) (stopTimeouts r) (awaitingReady r) (awaitingExit r).

Definition add_kill (p : Z) (signal : Signal) (r : Runtime) :=
  mkRuntime (forked r) (kills r ++ [(p, signal)]) (shutdownsSent r) (pendingRestarts r)
    (nextTimerId r) (stopTimeouts r) (awaitingReady r) (awaitingExit r).

Definition add_shutdownSent (p : Z) (r : Runtime) :=
  mkRuntime (forked r) (kills r) (shutdownsSent r ++ [p]) (pendingRestarts r)
    (nextTimerId r) (stopTimeouts r) (awaitingReady r) (awaitingExit r).

Definition set_pendingRestarts (v : list (nat * Z)) (next : nat) (r : Runtime) :=
  mkRuntime (forked r) (kills r) (shutdownsSent r) v
    next (stopTimeouts r) (awaitingReady r) (awaitingExit r).

Definition set_stopTimeouts (v : nat) (r : Runtime) :=
  mkRuntime (forked r) (kills r) (shutdownsSent r) (pendingRestarts r)
    (nextTimerId r) v (awaitingReady r) (awaitingExit r).

Definition set_awaitingReady (v : list (Spawner * Z)) (r : Runtime) :=
  mkRuntime (forked r) (kills r) (shutdownsSent r) (pendingRestarts r)
    (nextTimerId r) (stopTimeouts r) v (awaitingExit r).

Definition set_awaitingExit (v : option Z) (r : Runtime) :=
  mkRuntime (forked r) (kills r) (shutdownsSent r) (pendingRestarts r)
    (nextTimerId r) (stopTimeouts r) (awaitingReady r) v.

Definition on_mgr (f : WorkerManager -> WorkerManager) (s : System) : System :=
  {| mgr := f (mgr s); rt := rt s |}.

Definition on_rt (f : Runtime -> Runtime) (s : System) : System :=
  {| mgr := mgr s; rt := f (rt s) |}.

(** [private killWorker(signal)] *)
Definition killWorker (signal : Signal) (s : System) : System :=
  match worker (mgr s) with
  | None => s
  | Some p =>
      on_rt (add_kill p signal) s
  end.

(** [sendMessage({ type: 'shutdown' })]; the channel of a child whose
    handle is held is taken to be connected. *)
Definition sendShutdown (s : System) : bool * System :=
  match worker (mgr s) with
  | None => (false, s)
  | Some p =>
      (true, on_rt (add_shutdownSent p) s)
  end.

(** [private async spawnWorker()] up to its [await this.waitForReady(...)]:
    [fork] creates the next child, whose pid is its rank among the
    children forked. *)
Definition spawnWorker (by_ : Spawner) (s : System) : System :=
  let p := Z.of_nat (length (forked (rt s))) + 1 in
  on_rt (fun r => set_awaitingReady (awaitingReady r ++ [(by_, p)]) (add_forked p r))
    (on_mgr (set_worker (Some p)) s).

(** [Math.min(restartDelayMs * Math.pow(backoffMultiplier,
    consecutiveRestarts - 1), maxRestartDelayMs)], on whole numbers. *)
Definition backoffDelay (cfg : WorkerConfig) (consecutive : Z) : Z :=
  Z.min (restartDelayMs cfg * backoffMultiplier cfg ^ (consecutive - 1))
        (maxRestartDelayMs cfg).

(** JavaScript truthiness of a [number | null]. *)
Definition truthy (v : option Z) : bool :=
  match v with Some t => negb (t =? 0) | None => false end.

(** [private scheduleRestart()] *)
Definition scheduleRestart (now : Z) (s : System) : System :=
  let m := mgr s in
  let consecutive0 :=
    if truthy (lastRestartAt m)
       && (restartWindowMs (config m) <? now - default 0 (lastRestartAt m))
    then 0 else consecutiveRestarts m in
  let consecutive := consecutive0 + 1 in
  let total := restartCount m + 1 in
  let m1 := set_counts total consecutive m in
  if maxRestarts (config m) <? consecutive then
    {| mgr := set_shouldRestart false (emit (ev_max_restarts total) m1); rt := rt s |}
  else
    let delay := backoffDelay (config m) consecutive in
    let id := nextTimerId (rt s) in
    {| mgr := set_restartTimer (Some id) (emit (ev_restarting consecutive delay) m1);
       rt := set_pendingRestarts (pendingRestarts (rt s) ++ [(id, delay)]) (S id) (rt s) |}.

(** [clearTimeout] of a restart timer. *)
Definition clearTimer (id : nat) (r : Runtime) : Runtime :=
  set_pendingRestarts
    (List.filter (fun t => negb (Nat.eqb (fst t) id)) (pendingRestarts r))
    (nextTimerId r) r.

Definition isPending (id : nat) (r : Runtime) : bool :=
  existsb (fun t => Nat.eqb (fst t) id) (pendingRestarts r).

(** The callback given to [setTimeout] by [scheduleRestart], when the timer
    [id] fires, up to the [await] inside [spawnWorker]. *)
Definition restartTimerFired (id : nat) (now : Z) (s : System) : System :=
  if negb (isPending id (rt s)) then s
  else
    let s1 := on_rt (clearTimer id) s in
    let s2 := on_mgr (fun m =>
                set_heartbeatMonitor (HeartbeatMonitor.reset (heartbeatMonitor m))
                  (set_lastRestartAt (Some now) (set_restartTimer None m))) s1 in
    spawnWorker byRestartTimer s2.

(** [private handleWorkerExit(code, signal)] *)
Definition handleWorkerExit (code : option Z) (signal : option string) (now : Z)
  (s : System) : System :=
  let s1 := on_mgr (fun m =>
              set_lastExit code signal
                (set_worker None
                   (set_heartbeatMonitor (HeartbeatMonitor.stop (heartbeatMonitor m)) m))) s in
  match state (mgr s1) with
  | stopping => on_mgr (fun m => emit (ev_stopped code signal) (set_state stopped m)) s1
  | _ =>
      let s2 := on_mgr (fun m => emit (ev_crashed code signal) (set_state crashed m)) s1 in
      if shouldRestart (mgr s2) then scheduleRestart now s2 else s2
  end.

(** [private handleHungWorker(missedHeartbeats)] *)
Definition handleHungWorker (missedHeartbeats : Z) (s : System) : System :=
  killWorker SIGKILL
    (on_mgr (fun m => emit (ev_hung missedHeartbeats) (set_state hung m)) s).

(** [async start()] up to the [await] inside [spawnWorker]. *)
Definition start (s : System) : System :=
  match state (mgr s) with
  | running | starting => s
  | _ =>
      spawnWorker byStart
        (on_mgr (fun m => set_state starting (set_shouldRestart true m)) s)
  end.

(** The [waitForReady] of child [p] has settled. *)
Definition readySettled (p : Z) (r : Runtime) : Runtime :=
  set_awaitingReady (List.filter (fun w => negb (snd w =? p)) (awaitingReady r)) r.

(** The [catch] around [await this.spawnWorker()]: in [start()] it marks
    the manager crashed and rethrows; in the restart timer's callback it
    schedules another restart. *)
Definition spawnWorker_caught (by_ : Spawner) (now : Z) (s : System) : System :=
  match by_ with
  | byStart => on_mgr (set_state crashed) s
  | byRestartTimer => scheduleRestart now s
  end.

(** [spawnWorker] after the [waitForReady] of child [p] has resolved.
    Reading [this.worker.pid] throws when the handle has been dropped in
    the meantime, which rejects [spawnWorker] after its first three
    statements. *)
Definition spawnWorker_ready (by_ : Spawner) (p : Z) (now : Z) (s : System) : System :=
  let s1 :=
    on_rt (readySettled p)
      (on_mgr (fun m =>
         let m1 := set_startedAt (Some now) (set_state running m) in
         set_heartbeatMonitor (HeartbeatMonitor.start (heartbeatMonitor m1)) m1) s) in
  match worker (mgr s1) with
  | Some pid => on_mgr (emit (ev_started pid)) s1
  | None => spawnWorker_caught by_ now s1
  end.

(** [spawnWorker] after the [waitForReady] of child [p] has rejected. *)
Definition spawnWorker_rejected (by_ : Spawner) (p : Z) (now : Z) (s : System) : System :=
  spawnWorker_caught by_ now (on_rt (readySettled p) s).

(** [async stop(timeoutMs)] up to its [await Promise.race(...)].  The first
    statement returns at once when no child handle is held, or when the
    state is [stopped] or [stopping]. *)
Definition stop (s : System) : System :=
  match worker (mgr s), state (mgr s) with
  | None, _ => s
  | Some _, stopped => s
  | Some _, stopping => s
  | Some p, _ =>
      let s1 := on_mgr (fun m => set_state stopping (set_shouldRestart false m)) s in
      let s2 :=
        match restartTimer (mgr s1) with
        | Some id => on_mgr (set_restartTimer None) (on_rt (clearTimer id) s1)
        | None => s1
        end in
      let s3 := snd (sendShutdown s2) in
      on_rt (fun r => set_awaitingExit (Some p) (set_stopTimeouts (S (stopTimeouts r)) r)) s3
  end.

(** [stop] after the race has settled. *)
Definition stop_settled (s : System) : System :=
  let s1 := killWorker SIGKILL s in
  on_rt (set_awaitingExit None)
    (on_mgr (fun m =>
       set_heartbeatMonitor (HeartbeatMonitor.stop (heartbeatMonitor m))
         (set_state stopped m)) s1).

(** The events the runtime delivers to the manager, and the calls of its
    public methods. *)
Inductive Step :=
| CallStart
| CallStop
| WorkerReady (pid : Z)
| StartupTimeout (pid : Z)
| WorkerExit (pid : Z) (code : option Z) (signal : option string)
| WorkerError
| RestartTimer (id : nat)
| StopTimeout
| HeartbeatReceived (data : HeartbeatMonitor.HeartbeatData)
| HeartbeatCheck.

Definition awaitsReady (p : Z) (s : System) : option Spawner :=
  match List.find (fun w => snd w =? p) (awaitingReady (rt s)) with
  | Some (by_, _) => Some by_
  | None => None
  end.

(** One turn of the event loop at time [now], in two parts.  First the
    listeners of the event run, in their order of registration, each to
    its end. *)
Definition step_sync (now : Z) (e : Step) (s : System) : System :=
  match e with
  | CallStart => start s
  | CallStop => stop s
  | WorkerReady p => on_mgr (emit ev_message) s
  | StartupTimeout p => s
  | WorkerExit p code signal => handleWorkerExit code signal now s
  | WorkerError => handleWorkerExit (Some 1) None now s
  | RestartTimer id => restartTimerFired id now s
  | StopTimeout =>
      match stopTimeouts (rt s) with
      | O => s
      | S n => killWorker SIGTERM (on_rt (set_stopTimeouts n) s)
      end
  | HeartbeatReceived data =>
      on_mgr (fun m =>
        emit (ev_heartbeat data)
          (set_heartbeatMonitor
             (HeartbeatMonitor.recordHeartbeat now data (heartbeatMonitor m)) m)) s
  | HeartbeatCheck =>
      let before := HeartbeatMonitor.deadCalls (heartbeatMonitor (mgr s)) in
      let hb := HeartbeatMonitor.checkHeartbeat now (heartbeatMonitor (mgr s)) in
      let s1 := on_mgr (set_heartbeatMonitor hb) s in
      if (before <? HeartbeatMonitor.deadCalls hb)%nat
      then handleHungWorker (HeartbeatMonitor.missedCount hb) s1
      else s1
  end.

(** Then the suspended calls the listeners have woken resume: a
    [spawnWorker] whose [waitForReady] was settled by the event, and a
    [stop] whose race was.  [before] is the system as the event found it. *)
Definition step_async (now : Z) (e : Step) (before s : System) : System :=
  match e with
  | WorkerReady p =>
      match awaitsReady p before with
      | Some by_ => spawnWorker_ready by_ p now s
      | None => s
      end
  | StartupTimeout p =>
      match awaitsReady p before with
      | Some by_ => spawnWorker_rejected by_ p now s
      | None => s
      end
  | WorkerExit p code signal =>
      let s1 :=
        match awaitsReady p before with
        | Some by_ => spawnWorker_rejected by_ p now s
        | None => s
        end in
      match awaitingExit (rt before) with
      | Some q => if q =? p then stop_settled s1 else s1
      | None => s1
      end
  | StopTimeout =>
      match stopTimeouts (rt before), awaitingExit (rt before) with
      | S _, Some _ => stop_settled s
      | _, _ => s
      end
  | _ => s
  end.

Definition step (now : Z) (e : Step) (s : System) : System :=
  step_async now e s (step_sync now e s).

(** [getStats()] *)
Record WorkerStats := mkStats {
  st_state : WorkerState;
  st_pid : option Z;
  st_startedAt : option Z;
  st_uptime : Z;
  st_restartCount : Z;
  st_lastRestartAt : option Z;
  st_lastExitCode : option Z;
  st_lastExitSignal : option string;
  st_heartbeat : HeartbeatMonitor.HeartbeatStats
}.

Definition getStats (now : Z) (s : System) : WorkerStats :=
  let m := mgr s in
  {| st_state := state m;
     st_pid := worker m;
     st_startedAt := startedAt m;
     st_uptime := if truthy (startedAt m) then now - default 0 (startedAt m) else 0;
     st_restartCount := restartCount m;
     st_lastRestartAt := lastRestartAt m;
     st_lastExitCode := lastExitCode m;
     st_lastExitSignal := lastExitSignal m;
     st_heartbeat := HeartbeatMonitor.getStats (heartbeatMonitor m) |}.

Definition stateName (st : WorkerState) : string :=
  match st with
  | stopped => "stopped" | starting => "starting" | running => "running"
  | stopping => "stopping" | crashed => "crashed" | hung => "hung"
  end.

Definition run (steps : list (Z * Step)) (s : System) : System :=
  fold_left (fun acc '(now, e) => step now e acc) steps s.

(** How many worker processes have been spawned. *)
Definition spawns (s : System) : nat := length (forked (rt s)).

(** A worker starts, signals ready, runs for five seconds and exits with
    code 1: the manager is left [crashed] with a restart timer pending. *)
Definition crashAfterStart : list (Z * Step) :=
  [(0, CallStart); (100, WorkerReady 1); (5100, WorkerExit 1 (Some 1) None)].

End WorkerManager.

(* ===================================================================== *)
(** * Recovery engine ([src/supervisor/ai-recovery.ts]) *)
(* ===================================================================== *)

Module AIRecovery.

Inductive RecoveryAction := restart | wait | escalate | giveUp.

Inductive FailureReason := crash | hang | max_restarts.

(** Values stored in a decision's free-form [metadata]. *)
Inductive MetaValue := MBool (b : bool) | MNum (n : Z).

Record RecoveryDecision := mkDecision {
  action : RecoveryAction;
  reason : string;
  confidence : Q;
  waitMs : option Z;
  metadata : list (string * MetaValue);
  timestamp : Z
}.

(** [RecoveryContext], with [stats] narrowed to the fields its type
    declares. *)
Record HeartbeatView := mkHeartbeatView {
  hv_isAlive : bool;
  hv_missedCount : Z;
  hv_totalReceived : Z
}.

Record WorkerView := mkWorkerView {
  wv_state : string;
  wv_restartCount : Z;
  wv_uptime : Z;
  wv_heartbeat : HeartbeatView
}.

Record StatsView := mkStatsView {
  sv_state : string;
  sv_worker : WorkerView
}.

Record RecoveryContext := mkContext {
  ctx_reason : FailureReason;
  ctx_context : list (string * MetaValue);
  ctx_stats : StatsView;
  consecutiveCrashes : Z
}.

Record AIRecoveryConfig := mkConfig {
  enabled : bool;
  apiKey : option string;
  maxWaitMs : Z;
  confidenceThreshold : Q;
  historySize : Z
}.

(** [DEFAULT_CONFIG] *)
Definition DEFAULT_CONFIG : AIRecoveryConfig :=
  {| enabled := true; apiKey := None; maxWaitMs := 5 * 60 * 1000;
     confidenceThreshold := 7 # 10; historySize := 50 |}.

Record FailureRecord := mkRecord {
  fr_timestamp : Z;
  fr_reason : FailureReason;
  fr_uptime : Z;
  fr_decision : RecoveryDecision
}.

Record AIRecovery := mkEngine {
  config : AIRecoveryConfig;
  history : list FailureRecord
}.

Definition new (cfg : AIRecoveryConfig) : AIRecovery :=
  {| config := cfg; history := [] |}.

(** [private getRecentFailures(windowMs)] *)
Definition getRecentFailures (now windowMs : Z) (r : AIRecovery) : list FailureRecord :=
  let cutoff := now - windowMs in
  List.filter (fun f => cutoff <=? fr_timestamp f) (history r).

(** A template literal's rendering of a whole number. *)
Definition showZ (z : Z) : string := NilZero.string_of_int (Z.to_int z).

(** [private makeHeuristicDecision(context)].  [consecutiveCrashes] is a
    count, so [Math.pow(2, Math.min(consecutiveCrashes, 5))] is [Z.pow]. *)
Definition makeHeuristicDecision (now : Z) (r : AIRecovery) (context : RecoveryContext)
  : RecoveryDecision :=
  let reason := ctx_reason context in
  let consecutiveCrashes := consecutiveCrashes context in
  let stats := ctx_stats context in
  let uptime := wv_uptime (sv_worker stats) in
  let restartCount := wv_restartCount (sv_worker stats) in
  let recentFailures := getRecentFailures now (5 * 60 * 1000) r in
  let failureRate := Z.of_nat (length recentFailures) in
  let isRapidFailure := 3 <=? failureRate in
  let isBootLoop :=
    3 <=? Z.of_nat (length (List.filter (fun f => fr_uptime f <? 10000) recentFailures)) in
  if isBootLoop then
    {| action := escalate;
       reason := "Boot loop detected - worker failing within 10s repeatedly";
       confidence := 9 # 10;
       waitMs := None;
       timestamp := now;
       metadata := [("isBootLoop"%string, MBool true);
                    ("recentFailures"%string, MNum (Z.of_nat (length recentFailures)))] |}
  else if isRapidFailure then
    let waitMs := Z.min (30000 * 2 ^ Z.min consecutiveCrashes 5) (maxWaitMs (config r)) in
    {| action := wait;
       reason := "Rapid failures detected - waiting with exponential backoff";
       confidence := 8 # 10;
       waitMs := Some waitMs;
       timestamp := now;
       metadata := [("failureRate"%string, MNum failureRate);
                    ("consecutiveCrashes"%string, MNum consecutiveCrashes)] |}
  else
    match reason with
    | hang =>
        {| action := restart;
           reason := "Worker hung - likely deadlock, immediate restart";
           confidence := 85 # 100;
           waitMs := None;
           timestamp := now;
           metadata := [("missedHeartbeats"%string,
                         MNum (hv_missedCount (wv_heartbeat (sv_worker stats))))] |}
    | max_restarts =>
        {| action := escalate;
           reason := "Maximum restart attempts exceeded";
           confidence := 95 # 100;
           waitMs := None;
           timestamp := now;
           metadata := [("restartCount"%string, MNum restartCount)] |}
    | crash =>
        if 60000 <? uptime then
          {| action := restart;
             reason := "Worker was stable before crash - likely transient error";
             confidence := 75 # 100;
             waitMs := None;
             timestamp := now;
             metadata := [("uptime"%string, MNum uptime)] |}
        else if consecutiveCrashes <=? 3 then
          {| action := restart;
             reason := "Early crash (" +:+ showZ consecutiveCrashes
                       +:+ "/3) - attempting recovery";
             confidence := 7 # 10;
             waitMs := Some (1000 * consecutiveCrashes);
             timestamp := now;
             metadata := [("consecutiveCrashes"%string, MNum consecutiveCrashes)] |}
        else if consecutiveCrashes <=? 7 then
          let waitMs := Z.min (10000 * consecutiveCrashes) (maxWaitMs (config r)) in
          {| action := wait;
             reason := "Multiple crashes - waiting before next attempt";
             confidence := 65 # 100;
             waitMs := Some waitMs;
             timestamp := now;
             metadata := [("consecutiveCrashes"%string, MNum consecutiveCrashes)] |}
        else
          {| action := giveUp;
             reason := "Too many consecutive crashes - stopping recovery attempts";
             confidence := 8 # 10;
             waitMs := None;
             timestamp := now;
             metadata := [("consecutiveCrashes"%string, MNum consecutiveCrashes)] |}
    end.

(** [private async makeAIDecision(_context, heuristicDecision)]: the
    heuristic decision with [aiEnhanced: false] added to its metadata. *)
Definition makeAIDecision (context : RecoveryContext) (heuristicDecision : RecoveryDecision)
  : RecoveryDecision :=
  {| action := action heuristicDecision;
     reason := reason heuristicDecision;
     confidence := confidence heuristicDecision;
     waitMs := waitMs heuristicDecision;
     timestamp := timestamp heuristicDecision;
     metadata := metadata heuristicDecision ++ [("aiEnhanced"%string, MBool false)] |}.

(** [while (this.history.length > this.config.historySize) this.history.shift()].
    With a negative [historySize] the source loop never ends; this function
    is its result for [0 <= historySize]. *)
Fixpoint trimHistory (historySize : Z) (h : list FailureRecord) : list FailureRecord :=
  match h with
  | [] => []
  | _ :: rest =>
      if historySize <? Z.of_nat (length h) then trimHistory historySize rest else h
  end.

(** [private recordDecision(context, decision)] *)
Definition recordDecision (now : Z) (context : RecoveryContext)
  (decision : RecoveryDecision) (r : AIRecovery) : AIRecovery :=
  let record :=
    {| fr_timestamp := now;
       fr_reason := ctx_reason context;
       fr_uptime := wv_uptime (sv_worker (ctx_stats context));
       fr_decision := decision |} in
  {| config := config r;
     history := trimHistory (historySize (config r)) (history r ++ [record]) |}.

(** JavaScript truthiness of [this.config.apiKey]. *)
Definition hasApiKey (cfg : AIRecoveryConfig) : bool :=
  match apiKey cfg with
  | Some k => negb (String.eqb k "")
  | None => false
  end.

(** [async decide(context)]; [makeAIDecision] has no throwing path, so the
    [catch] branch is never taken. *)
Definition decide (now : Z) (context : RecoveryContext) (r : AIRecovery)
  : RecoveryDecision * AIRecovery :=
  let heuristicDecision := makeHeuristicDecision now r context in
  if enabled (config r) && hasApiKey (config r) then
    let aiDecision := makeAIDecision context heuristicDecision in
    (aiDecision, recordDecision now context aiDecision r)
  else
    (heuristicDecision, recordDecision now context heuristicDecision r).

(** The failures of the rolling history that fall in the last five minutes
    and had the worker up for less than ten seconds. *)
Definition bootLoopFailures (now : Z) (r : AIRecovery) : list FailureRecord :=
  List.filter (fun f => (now - 300000 <=? fr_timestamp f) && (fr_uptime f <? 10000))
    (history r).

End AIRecovery.

(* ===================================================================== *)
(** * Supervisor ([supervisor/supervisor.ts], in the sources under
    [src/supervisor/heartbeat-monitor.ts]) *)
(* ===================================================================== *)

Module Supervisor.

Inductive SupervisorState := stopped | starting | running | stopping | failed.

Record SupervisorConfig := mkConfig {
  worker : WorkerManager.WorkerConfig;
  aiRecoveryEnabled : bool;
  healthPort : Z;
  maxConsecutiveCrashes : Z;
  recoveryDecisionCooldownMs : Z
}.

(** [DEFAULT_CONFIG] around a worker configuration. *)
Definition defaultConfig (w : WorkerManager.WorkerConfig) : SupervisorConfig :=
  {| worker := w; aiRecoveryEnabled := true; healthPort := 18790;
     maxConsecutiveCrashes := 5; recoveryDecisionCooldownMs := 60000 |}.

(** [SupervisorEvents] *)
Inductive Event :=
| ev_started
| ev_stopped
| ev_worker_started (pid : Z)
| ev_worker_stopped
| ev_worker_crashed (code : option Z)
| ev_worker_hung
| ev_recovery_decision (decision : AIRecovery.RecoveryDecision)
| ev_failed (reason : string).

(** Who is suspended in [await this.workerManager.stop()]: a caller of
    [stop()] from outside, or [executeRecoveryAction] in its [give-up]
    case. *)
Inductive StopCaller := byCaller | byGiveUp.

(** The private fields of the class, followed by what the model keeps
    beside them: the events emitted, every value assigned to [this.state]
    in order, the suspended [stop()] if there is one, and whether a
    [start()] is suspended. *)
Record Supervisor := mkSupervisor {
  config : SupervisorConfig;
  workerManager : WorkerManager.System;
  aiRecovery : AIRecovery.AIRecovery;
  state : SupervisorState;
  startedAt : option Z;
  consecutiveCrashes : Z;
  recoveryDecisions : list AIRecovery.RecoveryDecision;
  lastRecoveryAction : option AIRecovery.RecoveryAction;
  lastRecoveryDecisionAt : option Z;
  shutdownRequested : bool;
  emitted : list Event;
  assigned : list SupervisorState;
  awaitingStop : option StopCaller;
  awaitingStart : bool
}.

(** [new Supervisor(config)]: the recovery engine gets [enabled] and the
    defaults for the rest. *)
Definition new (cfg : SupervisorConfig) : Supervisor :=
  {| config := cfg;
     workerManager := WorkerManager.new (worker cfg);
     aiRecovery :=
       AIRecovery.new
         (AIRecovery.mkConfig (aiRecoveryEnabled cfg)
            (AIRecovery.apiKey AIRecovery.DEFAULT_CONFIG)
            (AIRecovery.maxWaitMs AIRecovery.DEFAULT_CONFIG)
            (AIRecovery.confidenceThreshold AIRecovery.DEFAULT_CONFIG)
            (AIRecovery.historySize AIRecovery.DEFAULT_CONFIG));
     state := stopped; startedAt := None; consecutiveCrashes := 0;
     recoveryDecisions := []; lastRecoveryAction := None;
     lastRecoveryDecisionAt := None; shutdownRequested := false;
     emitted := []; assigned := []; awaitingStop := None; awaitingStart := false |}.

(** Field updates. *)
Definition set_workerManager (v : WorkerManager.System) (s : Supervisor) :=
  mkSupervisor (config s) v (aiRecovery s) (state s) (startedAt s)
    (consecutiveCrashes s) (recoveryDecisions s) (lastRecoveryAction s)
    (lastRecoveryDecisionAt s) (shutdownRequested s) (emitted s) (assigned s)
    (awaitingStop s) (awaitingStart s).

Definition set_aiRecovery (v : AIRecovery.AIRecovery) (s : Supervisor) :=
  mkSupervisor (config s) (workerManager s) v (state s) (startedAt s)
    (consecutiveCrashes s) (recoveryDecisions s) (lastRecoveryAction s)
    (lastRecoveryDecisionAt s) (shutdownRequested s) (emitted s) (assigned s)
    (awaitingStop s) (awaitingStart s).

(** [this.state = v] *)
Definition set_state (v : SupervisorState) (s : Supervisor) :=
  mkSupervisor (config s) (workerManager s) (aiRecovery s) v (startedAt s)
    (consecutiveCrashes s) (recoveryDecisions s) (lastRecoveryAction s)
    (lastRecoveryDecisionAt s) (shutdownRequested s) (emitted s) (assigned s ++ [v])
    (awaitingStop s) (awaitingStart s).

Definition set_startedAt (v : option Z) (s : Supervisor) :=
  mkSupervisor (config s) (workerManager s) (aiRecovery s) (state s) v
    (consecutiveCrashes s) (recoveryDecisions s) (lastRecoveryAction s)
    (lastRecoveryDecisionAt s) (shutdownRequested s) (emitted s) (assigned s)
    (awaitingStop s) (awaitingStart s).

Definition set_consecutiveCrashes (v : Z) (s : Supervisor) :=
  mkSupervisor (config s) (workerManager s) (aiRecovery s) (state s) (startedAt s)
    v (recoveryDecisions s) (lastRecoveryAction s)
    (lastRecoveryDecisionAt s) (shutdownRequested s) (emitted s) (assigned s)
    (awaitingStop s) (awaitingStart s).

Definition set_decisions (l : list AIRecovery.RecoveryDecision)
  (action : option AIRecovery.RecoveryAction) (at_ : option Z) (s : Supervisor) :=
  mkSupervisor (config s) (workerManager s) (aiRecovery s) (state s) (startedAt s)
    (consecutiveCrashes s) l action at_ (shutdownRequested s) (emitted s) (assigned s)
    (awaitingStop s) (awaitingStart s).

Definition set_shutdownRequested (v : bool) (s : Supervisor) :=
  mkSupervisor (config s) (workerManager s) (aiRecovery s) (state s) (startedAt s)
    (consecutiveCrashes s) (recoveryDecisions s) (lastRecoveryAction s)
    (lastRecoveryDecisionAt s) v (emitted s) (assigned s) (awaitingStop s)
    (awaitingStart s).

Definition emit (e : Event) (s : Supervisor) :=
  mkSupervisor (config s) (workerManager s) (aiRecovery s) (state s) (startedAt s)
    (consecutiveCrashes s) (recoveryDecisions s) (lastRecoveryAction s)
    (lastRecoveryDecisionAt s) (shutdownRequested s) (emitted s ++ [e]) (assigned s)
    (awaitingStop s) (awaitingStart s).

Definition set_awaitingStop (v : option StopCaller) (s : Supervisor) :=
  mkSupervisor (config s) (workerManager s) (aiRecovery s) (state s) (startedAt s)
    (consecutiveCrashes s) (recoveryDecisions s) (lastRecoveryAction s)
    (lastRecoveryDecisionAt s) (shutdownRequested s) (emitted s) (assigned s) v
    (awaitingStart s).

Definition set_awaitingStart (v : bool) (s : Supervisor) :=
  mkSupervisor (config s) (workerManager s) (aiRecovery s) (state s) (startedAt s)
    (consecutiveCrashes s) (recoveryDecisions s) (lastRecoveryAction s)
    (lastRecoveryDecisionAt s) (shutdownRequested s) (emitted s) (assigned s)
    (awaitingStop s) v.

Definition stateName (st : SupervisorState) : string :=
  match st with
  | stopped => "stopped" | starting => "starting" | running => "running"
  | stopping => "stopping" | failed => "failed"
  end.

(** [getStats()] *)
Record SupervisorStats := mkStats {
  st_state : SupervisorState;
  st_startedAt : option Z;
  st_uptime : Z;
  st_worker : WorkerManager.WorkerStats;
  st_recoveryDecisions : list AIRecovery.RecoveryDecision;
  st_lastRecoveryAction : option AIRecovery.RecoveryAction
}.

(** [array.slice(-n)] *)
Definition lastN {A : Type} (n : nat) (l : list A) : list A :=
  skipn (length l - n) l.

Definition getStats (now : Z) (s : Supervisor) : SupervisorStats :=
  {| st_state := state s;
     st_startedAt := startedAt s;
     st_uptime :=
       if WorkerManager.truthy (startedAt s) then now - default 0 (startedAt s) else 0;
     st_worker := WorkerManager.getStats now (workerManager s);
     st_recoveryDecisions := lastN 10 (recoveryDecisions s);
     st_lastRecoveryAction := lastRecoveryAction s |}.

(** The [RecoveryContext] passed to [decide]; the free-form [context]
    argument is not read by the engine. *)
Definition recoveryContext (reason : AIRecovery.FailureReason) (now : Z) (s : Supervisor)
  : AIRecovery.RecoveryContext :=
  let stats := getStats now s in
  let w := st_worker stats in
  let hb := WorkerManager.st_heartbeat w in
  {| AIRecovery.ctx_reason := reason;
     AIRecovery.ctx_context := [];
     AIRecovery.ctx_stats :=
       {| AIRecovery.sv_state := stateName (st_state stats);
          AIRecovery.sv_worker :=
            {| AIRecovery.wv_state := WorkerManager.stateName (WorkerManager.st_state w);
               AIRecovery.wv_restartCount := WorkerManager.st_restartCount w;
               AIRecovery.wv_uptime := WorkerManager.st_uptime w;
               AIRecovery.wv_heartbeat :=
                 {| AIRecovery.hv_isAlive := HeartbeatMonitor.st_isAlive hb;
                    AIRecovery.hv_missedCount := HeartbeatMonitor.st_missedCount hb;
                    AIRecovery.hv_totalReceived := HeartbeatMonitor.st_totalReceived hb |} |} |};
     AIRecovery.consecutiveCrashes := consecutiveCrashes s |}.

(** [async stop()] up to its [await this.workerManager.stop()]. *)
Definition stop (by_ : StopCaller) (s : Supervisor) : Supervisor :=
  match state s with
  | stopped | stopping => s
  | _ =>
      let s1 := set_shutdownRequested true (set_state stopping s) in
      set_awaitingStop (Some by_)
        (set_workerManager (WorkerManager.stop (workerManager s1)) s1)
  end.

(** [stop()] after [workerManager.stop()] has settled. *)
Definition stop_settled (s : Supervisor) : Supervisor :=
  emit ev_stopped (set_startedAt None (set_state stopped (set_awaitingStop None s))).

(** The last statement of [handleWorkerFailure]. *)
Definition checkFailureThreshold (s : Supervisor) : Supervisor :=
  if maxConsecutiveCrashes (config s) <=? consecutiveCrashes s then
    emit (ev_failed ("Max consecutive crashes ("
                     +:+ AIRecovery.showZ (consecutiveCrashes s) +:+ ") exceeded"))
      (set_state failed s)
  else s.

(** [private async executeRecoveryAction(decision)] up to its end or, for
    [give-up], up to the [await] inside [this.stop()]. *)
Definition executeRecoveryAction (decision : AIRecovery.RecoveryDecision) (s : Supervisor)
  : Supervisor :=
  match AIRecovery.action decision with
  | AIRecovery.restart => s
  | AIRecovery.wait => s
  | AIRecovery.escalate => s
  | AIRecovery.giveUp => stop byGiveUp (set_state failed s)
  end.

(** [private async handleWorkerFailure(reason, context)], first part: the
    two guards and the call of [decide], which runs to its end before the
    [await] suspends the handler.  The result carries the decision the
    handler is waiting for, or nothing when the handler has finished. *)
Definition handleWorkerFailure (reason : AIRecovery.FailureReason) (now : Z)
  (s : Supervisor) : Supervisor * option AIRecovery.RecoveryDecision :=
  if shutdownRequested s then (s, None)
  else if WorkerManager.truthy (lastRecoveryDecisionAt s)
          && (now - default 0 (lastRecoveryDecisionAt s)
              <? recoveryDecisionCooldownMs (config s))
  then (s, None)
  else if aiRecoveryEnabled (config s) then
    let '(decision, engine) :=
      AIRecovery.decide now (recoveryContext reason now s) (aiRecovery s) in
    (set_aiRecovery engine s, Some decision)
  else (checkFailureThreshold s, None).

(** [this.recoveryDecisions.push(decision)], keeping the last 100. *)
Definition pushDecision (d : AIRecovery.RecoveryDecision)
  (l : list AIRecovery.RecoveryDecision) : list AIRecovery.RecoveryDecision :=
  let l' := l ++ [d] in
  if (100 <? length l')%nat then tl l' else l'.

(** [handleWorkerFailure], second part: from the decision to the end of
    [executeRecoveryAction]; [now] is the time read in the first part. *)
Definition handleWorkerFailure_decided (decision : AIRecovery.RecoveryDecision) (now : Z)
  (s : Supervisor) : Supervisor :=
  let s1 := set_decisions (pushDecision decision (recoveryDecisions s))
              (Some (AIRecovery.action decision)) (Some now) s in
  let s2 := emit (ev_recovery_decision decision) s1 in
  let s3 := executeRecoveryAction decision s2 in
  match AIRecovery.action decision with
  | AIRecovery.giveUp => s3
  | _ => checkFailureThreshold s3
  end.

(** What resumes once [workerManager.stop()] has settled: the rest of
    [stop()], and after a [give-up] the rest of [handleWorkerFailure]. *)
Definition resumeAfterStop (s : Supervisor) : Supervisor :=
  match awaitingStop s with
  | None => s
  | Some byCaller => stop_settled s
  | Some byGiveUp => checkFailureThreshold (stop_settled s)
  end.

(** [async start()] up to [await this.workerManager.start()], and its two
    continuations. *)
Definition start (s : Supervisor) : Supervisor :=
  match state s with
  | running | starting => s
  | _ =>
      let s1 := set_shutdownRequested false (set_state starting s) in
      set_awaitingStart true
        (set_workerManager (WorkerManager.start (workerManager s1)) s1)
  end.

Definition start_resolved (now : Z) (s : Supervisor) : Supervisor :=
  emit ev_started
    (set_startedAt (Some now) (set_state running (set_awaitingStart false s))).

Definition start_rejected (s : Supervisor) : Supervisor :=
  set_state failed (set_awaitingStart false s).

(** The listeners of [setupWorkerListeners], each up to the point where
    it returns or suspends. *)
Definition onWorkerEvent (now : Z) (e : WorkerManager.Event) (s : Supervisor)
  : Supervisor * option AIRecovery.RecoveryDecision :=
  match e with
  | WorkerManager.ev_started pid =>
      (emit (ev_worker_started pid) (set_consecutiveCrashes 0 s), None)
  | WorkerManager.ev_stopped _ _ => (emit ev_worker_stopped s, None)
  | WorkerManager.ev_crashed code _ =>
      handleWorkerFailure AIRecovery.crash now
        (emit (ev_worker_crashed code)
           (set_consecutiveCrashes (consecutiveCrashes s + 1) s))
  | WorkerManager.ev_hung _ =>
      handleWorkerFailure AIRecovery.hang now (emit ev_worker_hung s)
  | WorkerManager.ev_max_restarts _ =>
      handleWorkerFailure AIRecovery.max_restarts now s
  | _ => (s, None)
  end.

Fixpoint onWorkerEvents (now : Z) (es : list WorkerManager.Event) (s : Supervisor)
  : Supervisor * list AIRecovery.RecoveryDecision :=
  match es with
  | [] => (s, [])
  | e :: rest =>
      let '(s1, d) := onWorkerEvent now e s in
      let '(s2, ds) := onWorkerEvents now rest s1 in
      (s2, match d with Some x => x :: ds | None => ds end)
  end.

(** ** One turn of the event loop

    The runtime delivers an event to the worker manager.  The manager's
    listeners run, and inside each [emit] the supervisor's listeners, up to
    their first [await]; the handlers suspended on a decision resume; the
    manager's own suspended calls resume, with the supervisor's listeners
    again; and last whatever waited on the manager's [start()] or
    [stop()].  The supervisor's listeners are run on the manager's state
    at the end of its part of the turn: what a decision reads of it is the
    same there as at the [emit]. *)
Definition listen (now : Z) (seen : nat) (s : Supervisor) : Supervisor :=
  let news :=
    skipn seen (WorkerManager.emitted (WorkerManager.mgr (workerManager s))) in
  let '(s1, decisions) := onWorkerEvents now news s in
  fold_left (fun acc d => handleWorkerFailure_decided d now acc) decisions s1.

Definition startWaits (w : WorkerManager.System) : bool :=
  existsb (fun a => match fst a with WorkerManager.byStart => true | _ => false end)
    (WorkerManager.awaitingReady (WorkerManager.rt w)).

Definition hasStarted (es : list WorkerManager.Event) : bool :=
  existsb (fun e => match e with WorkerManager.ev_started _ => true | _ => false end) es.

Definition settle (now : Z) (startWaited : bool) (news : list WorkerManager.Event)
  (s : Supervisor) : Supervisor :=
  let s1 :=
    if awaitingStart s && startWaited && negb (startWaits (workerManager s)) then
      if hasStarted news then start_resolved now s else start_rejected s
    else s in
  match WorkerManager.awaitingExit (WorkerManager.rt (workerManager s1)) with
  | None => resumeAfterStop s1
  | Some _ => s1
  end.

Definition deliver (now : Z) (e : WorkerManager.Step) (s : Supervisor) : Supervisor :=
  let w := workerManager s in
  let seen := length (WorkerManager.emitted (WorkerManager.mgr w)) in
  let s1 := listen now seen (set_workerManager (WorkerManager.step_sync now e w) s) in
  let seen1 := length (WorkerManager.emitted (WorkerManager.mgr (workerManager s1))) in
  let s2 :=
    listen now seen1
      (set_workerManager (WorkerManager.step_async now e w (workerManager s1)) s1) in
  settle now (startWaits w)
    (skipn seen (WorkerManager.emitted (WorkerManager.mgr (workerManager s2)))) s2.

(** Calls of the public methods, and a run of turns. *)
Inductive Turn :=
| CallStart
| CallStop
| Deliver (e : WorkerManager.Step).

Definition turn (now : Z) (t : Turn) (s : Supervisor) : Supervisor :=
  match t with
  | CallStart =>
      let s1 := start s in
      if awaitingStart s1 && negb (startWaits (workerManager s1))
      then start_resolved now s1 else s1
  | CallStop => settle now false [] (stop byCaller s)
  | Deliver e => deliver now e s
  end.

Definition run (turns : list (Z * Turn)) (s : Supervisor) : Supervisor :=
  fold_left (fun acc '(now, t) => turn now t acc) turns s.

(** A run that ends in [give-up].  The worker starts and signals ready,
    crashes after 900 ms, and each of the seven restarts that follow exits
    before signalling ready; the eighth crash comes once the 30 s cooldown
    since the first decision is over.  The restart delay is capped at 5 s
    and the manager may restart 100 times; the supervisor gives up on its
    own only at 20 consecutive crashes. *)
Definition sampleConfig : SupervisorConfig :=
  {| worker := WorkerManager.mkConfig 100 1000 5000 2 60000 None
                 HeartbeatMonitor.DEFAULT_CONFIG;
     aiRecoveryEnabled := true; healthPort := 18790;
     maxConsecutiveCrashes := 20; recoveryDecisionCooldownMs := 30000 |}.

Definition exits (p : Z) : Turn := Deliver (WorkerManager.WorkerExit p (Some 1) None).

Definition startupCrashes : list (Z * Turn) :=
  [(0, CallStart); (100, Deliver (WorkerManager.WorkerReady 1)); (1000, exits 1);
   (2000, Deliver (WorkerManager.RestartTimer 0)); (2100, exits 2);
   (4100, Deliver (WorkerManager.RestartTimer 1)); (4200, exits 3);
   (6100, Deliver (WorkerManager.RestartTimer 2)); (6200, exits 4);
   (9200, Deliver (WorkerManager.RestartTimer 3)); (9300, exits 5);
   (9400, Deliver (WorkerManager.RestartTimer 4)); (9500, exits 6);
   (11200, Deliver (WorkerManager.RestartTimer 5)); (11300, exits 7);
   (11400, Deliver (WorkerManager.RestartTimer 6))].

Definition eighthCrash : Z * Turn := (31500, exits 8).

(** The supervisor at the moment [handleWorkerFailure] has its decision
    for the eighth crash: the manager has handled the exit, the
    ['crashed'] listener has counted it and called [decide]. *)
Definition eighthCrashHandled : Supervisor * option AIRecovery.RecoveryDecision :=
  let s := run startupCrashes (new sampleConfig) in
  let w := WorkerManager.step_sync 31500 (WorkerManager.WorkerExit 8 (Some 1) None)
             (workerManager s) in
  onWorkerEvent 31500 (WorkerManager.ev_crashed (Some 1) None) (set_workerManager w s).

Definition failedEvents (s : Supervisor) : list Event :=
  List.filter (fun e => match e with ev_failed _ => true | _ => false end) (emitted s).

End Supervisor.

(* ===================================================================== *)
(** * Theorems *)
(* ===================================================================== *)

Section DoubleFacts.
Import Double.

(** The three literals are the doubles nearest to the decimals, doubles
    are fixed by the rounding, and the whole numbers met here are
    doubles. *)
Example literals_are_nearest :
  fl (1 # 10) = d0_1 /\ fl (2 # 10) = d0_2 /\ fl (8 # 10) = d0_8 /\
  fl d0_1 = d0_1 /\ fl 300 = 300%Q /\ fl (- (3 # 2)) = (- (3 # 2))%Q.
Proof. vm_compute. repeat split; reflexivity. Qed.

(** Ties go to the even significand: 2^53 + 1 rounds down to 2^53, and
    2^53 + 3 rounds up to 2^53 + 4. *)
Example ties_to_even :
  fl (inject_Z (2 ^ 53 + 1)) = inject_Z (2 ^ 53) /\
  fl (inject_Z (2 ^ 53 + 3)) = inject_Z (2 ^ 53 + 4).
Proof. vm_compute. split; reflexivity. Qed.

(** [applyJitter(100, 0.1)] when [Math.random()] returns 0.625: the
    product [100 * 1.025] is the double just below 102.5, which
    [Math.round] takes to 102 (in exact arithmetic it would be 102.5,
    rounded to 103). *)
Example applyJitter_rounds_doubles :
  Retry.applyJitter (5 # 8) 100 d0_1 = 102%Q.
Proof. vm_compute. reflexivity. Qed.

End DoubleFacts.

Section CircuitBreakerFacts.
Import CircuitBreaker.

Lemma transition_state (s : CircuitBreakerState) (cb : CircuitBreaker) :
  state (transition s cb) = s.
Proof.
  unfold transition.
  destruct (state_eqb (state cb) s) eqn:E.
  - destruct (state cb), s; simpl in E; congruence.
  - destruct s; reflexivity.
Qed.

Lemma transition_config (s : CircuitBreakerState) (cb : CircuitBreaker) :
  config (transition s cb) = config cb.
Proof.
  unfold transition.
  destruct (state_eqb (state cb) s); [reflexivity|].
  destruct s; reflexivity.
Qed.

Lemma transition_lastFailureTime (s : CircuitBreakerState) (cb : CircuitBreaker) :
  lastFailureTime (transition s cb) = lastFailureTime cb.
Proof.
  unfold transition.
  destruct (state_eqb (state cb) s); [reflexivity|].
  destruct s; reflexivity.
Qed.

Lemma recordFailure_config (t : Z) (cb : CircuitBreaker) :
  config (recordFailure t cb) = config cb.
Proof.
  unfold recordFailure; simpl.
  destruct (state cb); simpl; try reflexivity.
  - destruct (_ <=? _); [rewrite transition_config|]; reflexivity.
  - rewrite transition_config; reflexivity.
Qed.

Lemma recordFailure_lastFailureTime (t : Z) (cb : CircuitBreaker) :
  lastFailureTime (recordFailure t cb) = Some t.
Proof.
  unfold recordFailure; simpl.
  destruct (state cb); simpl; try reflexivity.
  - destruct (_ <=? _); [rewrite transition_lastFailureTime|]; reflexivity.
  - rewrite transition_lastFailureTime; reflexivity.
Qed.

(** A failure in [CLOSED] that leaves the count under the threshold. *)
Lemma recordFailure_closed_below (t : Z) (cb : CircuitBreaker) :
  state cb = CLOSED ->
  failures cb + 1 < failureThreshold (config cb) ->
  state (recordFailure t cb) = CLOSED /\
  failures (recordFailure t cb) = failures cb + 1.
Proof.
  intros Hs Hlt. unfold recordFailure; simpl. rewrite Hs; simpl.
  destruct (Z.leb_spec (failureThreshold (config cb)) (failures cb + 1)); [lia|].
  simpl. auto.
Qed.

(** A failure in [CLOSED] that brings the count to the threshold. *)
Lemma recordFailure_closed_trip (t : Z) (cb : CircuitBreaker) :
  state cb = CLOSED ->
  failureThreshold (config cb) <= failures cb + 1 ->
  state (recordFailure t cb) = OPEN.
Proof.
  intros Hs Hge. unfold recordFailure; simpl. rewrite Hs; simpl.
  destruct (Z.leb_spec (failureThreshold (config cb)) (failures cb + 1)); [|lia].
  apply transition_state.
Qed.

Lemma recordFailures_app (xs ys : list Z) (cb : CircuitBreaker) :
  recordFailures (xs ++ ys) cb = recordFailures ys (recordFailures xs cb).
Proof. unfold recordFailures. apply fold_left_app. Qed.

(** While the run of failures is shorter than the threshold the breaker
    stays closed and counts them. *)
Lemma recordFailures_below (times : list Z) :
  forall cb : CircuitBreaker,
    state cb = CLOSED ->
    failures cb + Z.of_nat (length times) < failureThreshold (config cb) ->
    state (recordFailures times cb) = CLOSED /\
    failures (recordFailures times cb) = failures cb + Z.of_nat (length times) /\
    config (recordFailures times cb) = config cb.
Proof.
  induction times as [|t times IH]; intros cb Hs Hlt.
  - simpl. split; [exact Hs|split; [lia|reflexivity]].
  - simpl in Hlt. change (recordFailures (t :: times) cb)
      with (recordFailures times (recordFailure t cb)).
    destruct (recordFailure_closed_below t cb Hs ltac:(lia)) as [Hs1 Hf1].
    pose proof (recordFailure_config t cb) as Hc1.
    destruct (IH (recordFailure t cb) Hs1) as (Hs2 & Hf2 & Hc2).
    { rewrite Hf1, Hc1. lia. }
    repeat split; [exact Hs2 | rewrite Hf2, Hf1; simpl length; lia | congruence].
Qed.

Lemma isAllowed_open_early (now t : Z) (cb : CircuitBreaker) :
  state cb = OPEN -> lastFailureTime cb = Some t -> t <> 0 ->
  now - t < resetTimeoutMs (config cb) ->
  isAllowed now cb = (false, cb).
Proof.
  intros Hs Hl Ht Hlt. unfold isAllowed, timeSinceFailure. rewrite Hs, Hl.
  destruct (Z.eqb_spec t 0); [contradiction|]. simpl.
  destruct (Z.leb_spec (resetTimeoutMs (config cb)) (now - t)); [lia|reflexivity].
Qed.

Lemma isAllowed_open_late (now t : Z) (cb : CircuitBreaker) :
  state cb = OPEN -> lastFailureTime cb = Some t ->
  resetTimeoutMs (config cb) <= now - t ->
  isAllowed now cb = (true, transition HALF_OPEN cb).
Proof.
  intros Hs Hl Hge. unfold isAllowed, timeSinceFailure. rewrite Hs, Hl.
  destruct (Z.eqb_spec t 0); [reflexivity|]. simpl.
  destruct (Z.leb_spec (resetTimeoutMs (config cb)) (now - t)); [reflexivity|lia].
Qed.

Lemma admissionChecks_open_early (t : Z) (cb : CircuitBreaker) (early : list Z) :
  state cb = OPEN -> lastFailureTime cb = Some t -> t <> 0 ->
  Forall (fun now => now - t < resetTimeoutMs (config cb)) early ->
  admissionChecks early cb = (map (fun _ => false) early, cb).
Proof.
  intros Hs Hl Ht. induction 1 as [|now early Hnow _ IH]; [reflexivity|].
  simpl. rewrite (isAllowed_open_early now t cb Hs Hl Ht Hnow), IH. reflexivity.
Qed.

Lemma admissionChecks_app (xs ys : list Z) (cb : CircuitBreaker) :
  admissionChecks (xs ++ ys) cb =
  let '(a1, cb1) := admissionChecks xs cb in
  let '(a2, cb2) := admissionChecks ys cb1 in
  (a1 ++ a2, cb2).
Proof.
  revert cb. induction xs as [|x xs IH]; intros cb; simpl.
  - destruct (admissionChecks ys cb); reflexivity.
  - destruct (isAllowed x cb) as [a cb1]. rewrite IH.
    destruct (admissionChecks xs cb1) as [a1 cb2].
    destruct (admissionChecks ys cb2); reflexivity.
Qed.

(** In a breaker reached from the constructor the count of a closed
    breaker is the length of its current run of failures, and that is
    below a threshold of at least one. *)
Lemma closed_failures_below_threshold (cfg : CircuitBreakerConfig) (ops : list Op) :
  1 <= failureThreshold cfg ->
  config (run ops (new cfg)) = cfg /\
  (state (run ops (new cfg)) = CLOSED ->
   0 <= failures (run ops (new cfg)) < failureThreshold cfg).
Proof.
  intros Hth.
  assert (Hgen : forall (ops : list Op) (cb : CircuitBreaker),
            config cb = cfg ->
            (state cb = CLOSED -> 0 <= failures cb < failureThreshold cfg) ->
            config (run ops cb) = cfg /\
            (state (run ops cb) = CLOSED ->
             0 <= failures (run ops cb) < failureThreshold cfg)).
  { clear ops. induction ops as [|op ops IH]; intros cb Hc Hinv; [auto|].
    simpl. apply IH.
    - destruct op as [now|now|now|s|]; simpl.
      + unfold isAllowed. destruct (state cb); try assumption.
        destruct (ext_geb _ _); simpl; [rewrite transition_config|]; assumption.
      + unfold recordSuccess. simpl. destruct (state cb); simpl; try assumption.
        destruct (_ <=? _); [rewrite transition_config|]; assumption.
      + rewrite recordFailure_config. assumption.
      + unfold forceState. rewrite transition_config. assumption.
      + unfold reset. rewrite transition_config. assumption.
    - assert (Htr : forall (s : CircuitBreakerState) (c : CircuitBreaker),
                (state c = CLOSED -> 0 <= failures c < failureThreshold cfg) ->
                state (transition s c) = CLOSED ->
                0 <= failures (transition s c) < failureThreshold cfg).
      { intros s c Hc0. unfold transition.
        destruct (state_eqb (state c) s) eqn:E; [exact Hc0|].
        destruct s; simpl; intros H; try discriminate. lia. }
      assert (Hcb : state cb = CLOSED -> 0 <= failures cb < failureThreshold (config cb)).
      { rewrite Hc. exact Hinv. }
      clear Hinv. rewrite <- Hc in Htr, Hth |- *. clear Hc.
      destruct op as [now|now|now|s|]; simpl.
      + unfold isAllowed. destruct (state cb) eqn:Hs; simpl.
        * intros _. apply Hcb. reflexivity.
        * destruct (ext_geb _ _); simpl.
          -- rewrite transition_state. discriminate.
          -- rewrite Hs. discriminate.
        * rewrite Hs. discriminate.
      + unfold recordSuccess. simpl. destruct (state cb) eqn:Hs; simpl.
        * intros _. lia.
        * rewrite Hs. discriminate.
        * destruct (_ <=? _).
          -- rewrite transition_state. intros _.
             unfold transition. simpl. rewrite Hs. simpl. lia.
          -- simpl. rewrite Hs. discriminate.
      + unfold recordFailure. simpl. destruct (state cb) eqn:Hs; simpl.
        * destruct (Z.leb_spec (failureThreshold (config cb)) (failures cb + 1)).
          -- rewrite transition_state. discriminate.
          -- simpl. intros _. specialize (Hcb eq_refl). lia.
        * rewrite Hs. discriminate.
        * rewrite transition_state. discriminate.
      + unfold forceState. apply Htr. exact Hcb.
      + unfold reset. intros H. apply (Htr CLOSED _); [|exact H].
        simpl. intros _. lia. }
  apply Hgen; [reflexivity | simpl; intros _; lia].
Qed.

(** Why the last failure of C1 is taken at a clock reading other than
    [0]: a breaker opened by a failure stamped [0] lets the very next check
    through, whatever the reset timeout. *)
Lemma isAllowed_after_failure_stamped_zero :
  let opened := recordFailures [0] (new (mkConfig 1 30000 3 None)) in
  state opened = OPEN /\ fst (isAllowed 1 opened) = true.
Proof. split; reflexivity. Qed.

(** C1.  A closed breaker whose run of consecutive failures is completed to
    exactly [failureThreshold] by the failures recorded at [earlier ++ [tlast]]
    (for a breaker with no failure counted yet these are [failureThreshold]
    failures) stays closed until the last of them and is open after it.
    From then on every admission check made less than [resetTimeoutMs]
    after that last failure answers [false] and changes nothing, and
    [execute] throws the circuit-open error with the world untouched, so
    the wrapped operation is not invoked; the first check made at or after
    [resetTimeoutMs] answers [true] and leaves the breaker half-open.
    The clock is assumed not to read [0] at the last failure: [Date.now()]
    is milliseconds since 1970, and [isAllowed] tests the stored timestamp
    for truthiness. *)
Theorem C1_breaker_opens_rejects_then_probes :
  forall (cb : CircuitBreaker) (earlier : list Z) (tlast : Z),
    state cb = CLOSED ->
    failures cb + Z.of_nat (length (earlier ++ [tlast]))
      = failureThreshold (config cb) ->
    tlast <> 0 ->
    let run := earlier ++ [tlast] in
    let opened := recordFailures run cb in
    let timeout := resetTimeoutMs (config cb) in
    (forall k : nat, (k < length run)%nat ->
       state (recordFailures (firstn k run) cb) = CLOSED) /\
    state opened = OPEN /\
    (forall now : Z, now - tlast < timeout ->
       isAllowed now opened = (false, opened)) /\
    (forall (W T E : Type) (clock : W -> Z) (fn : W -> (T + E) * W) (w : W),
       clock w - tlast < timeout ->
       execute clock fn opened w =
       (ThrewOpen (mkOpenError (name opened) (getStats opened)), opened, w)) /\
    (forall (early : list Z) (now : Z),
       Forall (fun t => t - tlast < timeout) early ->
       timeout <= now - tlast ->
       exists probing : CircuitBreaker,
         admissionChecks (early ++ [now]) opened
           = (map (fun _ => false) early ++ [true], probing) /\
         state probing = HALF_OPEN).
Proof.
  intros cb earlier tlast Hs Hrun Ht run opened timeout.
  rewrite length_app in Hrun; simpl in Hrun.
  assert (Hbelow : forall k : nat, (k < length run)%nat ->
            state (recordFailures (firstn k run) cb) = CLOSED /\
            failures (recordFailures (firstn k run) cb) = failures cb + Z.of_nat k /\
            config (recordFailures (firstn k run) cb) = config cb).
  { intros k Hk.
    assert (Hlen : length (firstn k run) = k).
    { rewrite length_firstn. lia. }
    pose proof (recordFailures_below (firstn k run) cb Hs) as H.
    rewrite Hlen in H. apply H.
    subst run. rewrite length_app in Hk; simpl in Hk. lia. }
  assert (Hprev : state (recordFailures earlier cb) = CLOSED /\
            failures (recordFailures earlier cb)
              = failures cb + Z.of_nat (length earlier) /\
            config (recordFailures earlier cb) = config cb).
  { apply recordFailures_below; [exact Hs | lia]. }
  destruct Hprev as (Hs1 & Hf1 & Hc1).
  assert (Hopened : opened = recordFailure tlast (recordFailures earlier cb)).
  { subst opened run. rewrite recordFailures_app. reflexivity. }
  assert (Hopen : state opened = OPEN).
  { rewrite Hopened. apply recordFailure_closed_trip; [exact Hs1|].
    rewrite Hf1, Hc1. lia. }
  assert (Hlast : lastFailureTime opened = Some tlast).
  { rewrite Hopened. apply recordFailure_lastFailureTime. }
  assert (Hcfg : config opened = config cb).
  { rewrite Hopened, recordFailure_config. exact Hc1. }
  assert (Hearly : forall now : Z, now - tlast < timeout ->
            isAllowed now opened = (false, opened)).
  { intros now Hnow. apply (isAllowed_open_early now tlast); auto.
    rewrite Hcfg. exact Hnow. }
  split; [intros k Hk; apply (Hbelow k Hk)|].
  split; [exact Hopen|].
  split; [exact Hearly|].
  split.
  - intros W T E clock fn w Hnow. unfold execute.
    rewrite (Hearly (clock w) Hnow). reflexivity.
  - intros early now Hall Hnow.
    exists (transition HALF_OPEN opened). split.
    + rewrite admissionChecks_app.
      rewrite (admissionChecks_open_early tlast opened early Hopen Hlast Ht).
      * simpl. rewrite (isAllowed_open_late now tlast opened Hopen Hlast).
        -- reflexivity.
        -- rewrite Hcfg. exact Hnow.
      * rewrite Hcfg. exact Hall.
    + apply transition_state.
Qed.

(** C10.  [recordSuccess] never opens the breaker: in [CLOSED] it stays
    closed with the consecutive-failure count back at zero, in [OPEN] it
    stays open, and in [HALF_OPEN] it closes exactly when the incremented
    success count reaches [successThreshold] and stays half-open
    otherwise. *)
Theorem C10_recordSuccess_never_opens :
  forall (now : Z) (cb : CircuitBreaker),
    (state cb <> OPEN -> state (recordSuccess now cb) <> OPEN) /\
    match state cb with
    | CLOSED =>
        state (recordSuccess now cb) = CLOSED /\
        failures (recordSuccess now cb) = 0
    | OPEN => state (recordSuccess now cb) = OPEN
    | HALF_OPEN =>
        if successThreshold (config cb) <=? successes cb + 1
        then state (recordSuccess now cb) = CLOSED
        else state (recordSuccess now cb) = HALF_OPEN /\
             successes (recordSuccess now cb) = successes cb + 1
    end.
Proof.
  intros now cb. unfold recordSuccess. simpl.
  destruct (state cb) eqn:Hs; simpl.
  - rewrite Hs. split; [intros _; discriminate | split; reflexivity].
  - split; [intros H; congruence | exact Hs].
  - destruct (successThreshold (config cb) <=? successes cb + 1) eqn:Hth.
    + rewrite transition_state. split; [intros _; discriminate | reflexivity].
    + simpl. rewrite Hs. split; [intros _; discriminate | split; reflexivity].
Qed.

End CircuitBreakerFacts.

Section BoundedQueueFacts.
Import BoundedQueue.
Context {T : Type}.
Variable is_undefined : T -> bool.

Lemma checkLowWaterMark_queue (lw : Z) (q : BoundedQueue T) :
  queue (checkLowWaterMark T lw q) = queue q /\
  config (checkLowWaterMark T lw q) = config q.
Proof.
  unfold checkLowWaterMark.
  destruct ((size q <? lw) && wasAboveHighWaterMark q); split; reflexivity.
Qed.

Lemma pushItem_queue (hw lw : Z) (item : T) (q : BoundedQueue T) :
  queue (pushItem T hw lw item q) = queue q ++ [item] /\
  config (pushItem T hw lw item q) = config q.
Proof.
  unfold pushItem.
  match goal with
  | |- context [checkLowWaterMark T lw ?x] =>
      destruct (checkLowWaterMark_queue lw x) as [Hq Hc]; rewrite Hq, Hc
  end.
  destruct (_ && _); split; reflexivity.
Qed.

(** Names the queue and configuration equations of the [pushItem] in the
    goal. *)
Ltac after_pushItem Hq Hc :=
  match goal with
  | |- context [pushItem ?T ?hw ?lw ?item ?x] =>
      destruct (pushItem_queue hw lw item x) as [Hq Hc]
  end.

Lemma size_app_one (q : BoundedQueue T) (l : list T) (x : T) :
  queue q = l ++ [x] -> size q = Z.of_nat (length l) + 1.
Proof. intros H. unfold size. rewrite H, length_app. simpl. lia. Qed.

Lemma dequeue_cons (q : BoundedQueue T) (x : T) (rest : list T) :
  queue q = x :: rest ->
  fst (dequeue is_undefined q) = Some x /\
  queue (snd (dequeue is_undefined q)) = rest /\
  config (snd (dequeue is_undefined q)) = config q.
Proof.
  intros H. unfold dequeue. rewrite H.
  destruct (is_undefined x); simpl; [repeat split|].
  match goal with
  | |- context [checkLowWaterMark T ?lw ?x] =>
      destruct (checkLowWaterMark_queue lw x) as [Hq Hc]; rewrite Hq, Hc
  end.
  repeat split.
Qed.

Lemma dequeue_nil (q : BoundedQueue T) :
  queue q = [] -> dequeue is_undefined q = (None, q).
Proof. intros H. unfold dequeue. rewrite H. reflexivity. Qed.

(** Dequeuing as many times as there are items returns them oldest first
    and leaves the queue empty. *)
Lemma dequeueMany_all (items : list T) :
  forall q : BoundedQueue T,
    queue q = items ->
    fst (dequeueMany is_undefined (length items) q) = map Some items /\
    queue (snd (dequeueMany is_undefined (length items) q)) = [].
Proof.
  induction items as [|x items IH]; intros q Hq; simpl.
  - split; [reflexivity | exact Hq].
  - destruct (dequeue_cons q x items Hq) as (Hr & Hq1 & _).
    destruct (dequeue is_undefined q) as [r q1]; simpl in Hr, Hq1.
    destruct (IH q1 Hq1) as [Hrs Hq2].
    destruct (dequeueMany is_undefined (length items) q1) as [rs q2].
    simpl in *. subst r rs. split; [reflexivity | exact Hq2].
Qed.

(** The capacity test compares the length with [maxSize] as numbers: the
    queue is at capacity from [maxSize] rounded up on. *)
Lemma atCapacity_ceiling (m : Q) (s : Z) :
  Qle_bool m (inject_Z s) = (Qceiling m <=? s).
Proof.
  destruct (Z.leb_spec (Qceiling m) s) as [H|H].
  - apply Qle_bool_iff.
    apply Qle_trans with (inject_Z (Qceiling m)); [apply Qle_ceiling|].
    rewrite <- Zle_Qle. exact H.
  - destruct (Qle_bool m (inject_Z s)) eqn:E; [|reflexivity].
    apply Qle_bool_iff in E. apply Qceiling_resp_le in E.
    rewrite Qceiling_Z in E. lia.
Qed.

Lemma whole_ceiling (m : Q) (n : Z) : (m == inject_Z n)%Q -> Qceiling m = n.
Proof. intros H. rewrite H. apply Qceiling_Z. Qed.

(** Each public operation keeps the size within a capacity, rounded up, of
    at least one, and keeps the configuration. *)
Lemma step_within_capacity (q : BoundedQueue T) (op : Op T) :
  1 <= Qceiling (maxSize (config q)) ->
  size q <= Qceiling (maxSize (config q)) ->
  size (step is_undefined q op) <= Qceiling (maxSize (config q)) /\
  config (step is_undefined q op) = config q.
Proof.
  intros Hcap Hinv.
  assert (Henq : forall item : T,
            size (snd (enqueue is_undefined item q))
              <= Qceiling (maxSize (config q)) /\
            config (snd (enqueue is_undefined item q)) = config q).
  { intros item. unfold enqueue. rewrite atCapacity_ceiling.
    destruct (Z.leb_spec (Qceiling (maxSize (config q))) (size q)) as [Hfull|Hroom].
    - destruct (overflowStrategy (config q)); simpl.
      + split; [exact Hinv | reflexivity].
      + destruct (queue q) as [|dropped rest] eqn:Hq.
        { unfold size in Hfull. rewrite Hq in Hfull. simpl in Hfull. lia. }
        assert (Hlen : Z.of_nat (length rest) + 1
                         <= Qceiling (maxSize (config q))).
        { unfold size in Hinv. rewrite Hq in Hinv. simpl length in Hinv. lia. }
        destruct (is_undefined dropped);
          (after_pushItem Ha Hc; rewrite Hc; split; [|reflexivity];
           rewrite (size_app_one _ _ _ Ha); simpl; exact Hlen).
      + split; [exact Hinv | reflexivity].
    - simpl.
      after_pushItem Ha Hc. rewrite Hc. split; [|reflexivity].
      rewrite (size_app_one _ _ _ Ha).
      unfold size in Hroom. lia. }
  destruct op as [item|item| |]; simpl.
  - apply Henq.
  - unfold tryEnqueue. specialize (Henq item).
    destruct (enqueue is_undefined item q) as [[b|e] q']; exact Henq.
  - destruct (queue q) as [|x rest] eqn:Hq.
    + rewrite (dequeue_nil q Hq). simpl. split; [exact Hinv | reflexivity].
    + destruct (dequeue_cons q x rest Hq) as (_ & Hq1 & Hc1).
      rewrite Hc1. split; [|reflexivity].
      unfold size in *. rewrite Hq1. rewrite Hq in Hinv. simpl length in Hinv. lia.
  - unfold size. simpl. split; [lia | reflexivity].
Qed.

(** From a new queue the size stays within [maxSize] rounded up. *)
Lemma run_within_ceiling (cfg : BoundedQueueConfig) (ops : list (Op T)) :
  1 <= Qceiling (maxSize cfg) ->
  size (run is_undefined ops (new cfg)) <= Qceiling (maxSize cfg).
Proof.
  intros Hcap.
  assert (Hgen : forall (ops : list (Op T)) (q : BoundedQueue T),
            config q = cfg -> size q <= Qceiling (maxSize cfg) ->
            size (run is_undefined ops q) <= Qceiling (maxSize cfg)).
  { clear ops. induction ops as [|op ops IH]; intros q Hc Hinv; [exact Hinv|].
    simpl. subst cfg.
    destruct (step_within_capacity q op Hcap Hinv) as [Hs Hc'].
    apply IH; [exact Hc' | exact Hs]. }
  apply Hgen; [reflexivity | unfold size; simpl; lia].
Qed.

(** Below the capacity [enqueue] pushes, whatever the strategy. *)
Lemma enqueue_with_room (item : T) (q : BoundedQueue T) :
  size q < Qceiling (maxSize (config q)) ->
  fst (enqueue is_undefined item q) = Enqueued true /\
  queue (snd (enqueue is_undefined item q)) = queue q ++ [item] /\
  config (snd (enqueue is_undefined item q)) = config q.
Proof.
  intros Hroom. unfold enqueue. rewrite atCapacity_ceiling.
  destruct (Z.leb_spec (Qceiling (maxSize (config q))) (size q)); [lia|].
  simpl. after_pushItem Ha Hc. auto.
Qed.

(** The first [C] enqueues into a new queue of capacity [C] are all
    accepted and kept in order. *)
Lemma enqueues_up_to_capacity (items : list T) :
  forall q : BoundedQueue T,
    size q + Z.of_nat (length items) <= Qceiling (maxSize (config q)) ->
    queue (run is_undefined (map OpEnqueue items) q) = queue q ++ items /\
    config (run is_undefined (map OpEnqueue items) q) = config q.
Proof.
  induction items as [|x items IH]; intros q Hroom; simpl.
  - rewrite app_nil_r. auto.
  - simpl length in Hroom.
    destruct (enqueue_with_room x q ltac:(lia)) as (_ & Hq & Hc).
    destruct (IH (snd (enqueue is_undefined x q))) as [Hq' Hc'].
    { rewrite Hc. unfold size in *. rewrite Hq, length_app. simpl. lia. }
    rewrite Hq', Hc', Hq, Hc, <- app_assoc. auto.
Qed.

(** With a capacity of zero the queue is full while empty: under
    [drop-oldest] there is no head to evict and the item is pushed. *)
Lemma drop_oldest_capacity_zero (item : T) :
  let q := new (mkConfig 0 drop_oldest None) in
  isFull q = true /\
  fst (enqueue is_undefined item q) = Enqueued true /\
  queue (snd (enqueue is_undefined item q)) = [item].
Proof.
  intros q. split; [reflexivity|].
  unfold enqueue. change (Qle_bool _ _) with true. cbv iota.
  change (overflowStrategy (config q)) with drop_oldest. cbv iota.
  change (queue q) with (@nil T). cbv iota zeta. split; [reflexivity|].
  after_pushItem Ha Hc. exact Ha.
Qed.

(** With a fractional [maxSize] the capacity test lets the length pass it:
    at [maxSize] 1.5 neither [0 >= 1.5] nor [1 >= 1.5] holds, so two items
    are pushed. *)
Lemma fractional_maxSize_admits_two (strategy : OverflowStrategy) (a b : T) :
  queue (run is_undefined [OpEnqueue a; OpEnqueue b]
           (new (mkConfig (3 # 2) strategy None))) = [a; b].
Proof.
  destruct (enqueues_up_to_capacity [a; b]
              (new (mkConfig (3 # 2) strategy None))) as [Hq _].
  - unfold size. simpl. change (Qceiling (3 # 2)) with 2. lia.
  - exact Hq.
Qed.

(** C6.  A queue under the [reject] strategy that holds as many items as its
    capacity answers the next [enqueue] by throwing [QueueFullError]; the
    items, and so the size, are unchanged (only the rejection counter
    moves). *)
Theorem C6_reject_full_queue_raises :
  forall (q : BoundedQueue T) (item : T),
    overflowStrategy (config q) = reject ->
    (inject_Z (size q) == maxSize (config q))%Q ->
    fst (enqueue is_undefined item q)
      = ThrewQueueFull (mkQueueFullError (name q) (size q) (maxSize (config q))) /\
    queue (snd (enqueue is_undefined item q)) = queue q /\
    (inject_Z (size (snd (enqueue is_undefined item q)))
       == maxSize (config q))%Q /\
    totalRejected (snd (enqueue is_undefined item q)) = totalRejected q + 1.
Proof.
  intros q item Hstrat Hfull. unfold enqueue.
  rewrite atCapacity_ceiling, (whole_ceiling _ _ (Qeq_sym _ _ Hfull)), Z.leb_refl.
  rewrite Hstrat. simpl. split; [reflexivity|]. split; [reflexivity|].
  split; [exact Hfull | reflexivity].
Qed.

(** The same from the constructor: after [C] enqueues into a new queue of
    capacity [C], the (C+1)-th raises and the [C] items stay. *)
Lemma reject_the_enqueue_after_capacity (cfg : BoundedQueueConfig) (items : list T) (item : T) :
  overflowStrategy cfg = reject ->
  (maxSize cfg == inject_Z (Z.of_nat (length items)))%Q ->
  let q := run is_undefined (map OpEnqueue items) (new cfg) in
  queue q = items /\
  fst (enqueue is_undefined item q)
    = ThrewQueueFull
        (mkQueueFullError (name q) (Z.of_nat (length items)) (maxSize cfg)) /\
  queue (snd (enqueue is_undefined item q)) = items.
Proof.
  intros Hstrat Hcap q.
  pose proof (whole_ceiling _ _ Hcap) as Hceil.
  destruct (enqueues_up_to_capacity items (new cfg)) as [Hq Hc].
  { unfold size. simpl. lia. }
  fold q in Hq, Hc. simpl in Hq, Hc.
  assert (Hfull : size q = Z.of_nat (length items)).
  { unfold size. rewrite Hq. reflexivity. }
  split; [exact Hq|].
  unfold enqueue.
  rewrite atCapacity_ceiling, Hc, Hceil, Hfull, Z.leb_refl.
  rewrite Hstrat. simpl. split; [reflexivity | exact Hq].
Qed.

(** C7.  A queue under the [drop-oldest] strategy that holds as many items
    as its capacity, the oldest being [oldest], takes a new item in with the
    size still at the capacity; its items are then the former ones without
    the head, followed by the new item, and that is exactly what the
    following dequeues return, after which the queue is empty.  When the
    evicted head was no duplicate of a remaining or of the new item, it is
    not among the items dequeued. *)
Theorem C7_drop_oldest_evicts_head :
  forall (q : BoundedQueue T) (oldest : T) (rest : list T) (item : T),
    overflowStrategy (config q) = drop_oldest ->
    queue q = oldest :: rest ->
    (inject_Z (size q) == maxSize (config q))%Q ->
    let q' := snd (enqueue is_undefined item q) in
    let served := dequeueMany is_undefined (length (queue q')) q' in
    fst (enqueue is_undefined item q) = Enqueued true /\
    (inject_Z (size q') == maxSize (config q))%Q /\
    queue q' = rest ++ [item] /\
    fst served = map Some (rest ++ [item]) /\
    dequeue is_undefined (snd served) = (None, snd served) /\
    (~ In oldest rest -> oldest <> item -> ~ In (Some oldest) (fst served)).
Proof.
  intros q oldest rest item Hstrat Hq Hfull q' served.
  assert (Henq : fst (enqueue is_undefined item q) = Enqueued true /\
                 queue q' = rest ++ [item]).
  { subst q'. unfold enqueue.
    rewrite atCapacity_ceiling, (whole_ceiling _ _ (Qeq_sym _ _ Hfull)), Z.leb_refl.
    rewrite Hstrat, Hq. simpl. split; [reflexivity|].
    destruct (is_undefined oldest);
      (after_pushItem Ha Hc; rewrite Ha; reflexivity). }
  destruct Henq as [Hres Hq'].
  destruct (dequeueMany_all (queue q') q' eq_refl) as [Hserved Hempty].
  fold served in Hserved, Hempty.
  split; [exact Hres|].
  split.
  { rewrite <- Hfull. apply inject_Z_injective.
    unfold size. rewrite Hq', Hq, length_app. simpl. lia. }
  split; [exact Hq'|].
  split; [rewrite Hserved, Hq'; reflexivity|].
  split; [apply dequeue_nil; exact Hempty|].
  intros Hnotin Hneq Hin. rewrite Hserved, Hq' in Hin.
  apply in_map_iff in Hin. destruct Hin as (x & Hx & Hin).
  injection Hx as ->. apply in_app_iff in Hin.
  destruct Hin as [Hin|[Hin|[]]]; [exact (Hnotin Hin) | exact (Hneq (eq_sym Hin))].
Qed.

(** C9, as the code has it.  From a queue constructed with [maxSize] at
    least one, whatever the overflow strategy, no sequence of [enqueue],
    [tryEnqueue], [dequeue] and [clear] calls brings the size above
    [maxSize] rounded up to a whole number; so none brings it above a
    [maxSize] that is a whole number. *)
Theorem C9_size_never_exceeds_whole_maxSize :
  forall (cfg : BoundedQueueConfig) (ops : list (Op T)),
    (1 <= maxSize cfg)%Q ->
    size (run is_undefined ops (new cfg)) <= Qceiling (maxSize cfg) /\
    (forall n : Z,
        (maxSize cfg == inject_Z n)%Q ->
        (inject_Z (size (run is_undefined ops (new cfg))) <= maxSize cfg)%Q).
Proof.
  intros cfg ops Hcap.
  assert (Hceil : 1 <= Qceiling (maxSize cfg)).
  { apply Qceiling_resp_le in Hcap. exact Hcap. }
  pose proof (run_within_ceiling cfg ops Hceil) as Hsize.
  split; [exact Hsize|].
  intros n Hwhole. rewrite (whole_ceiling _ _ Hwhole) in Hsize.
  rewrite Hwhole, <- Zle_Qle. exact Hsize.
Qed.

End BoundedQueueFacts.

(** C9, as stated, fails.  [maxSize] is a number that the constructor does
    not validate, and 1.5 is at least one: neither [0 >= 1.5] nor
    [1 >= 1.5] holds, so under each strategy two enqueues are pushed and
    the size, two, exceeds [maxSize]. *)
Lemma C9_fractional_maxSize_is_exceeded :
  let q := fun strategy =>
    BoundedQueue.run (fun _ : Z => false)
      [BoundedQueue.OpEnqueue 1; BoundedQueue.OpEnqueue 2]
      (BoundedQueue.new (BoundedQueue.mkConfig (3 # 2) strategy None)) in
  (1 <= 3 # 2)%Q /\
  (BoundedQueue.queue (q BoundedQueue.reject) = [1; 2] /\
   ~ (inject_Z (BoundedQueue.size (q BoundedQueue.reject)) <= 3 # 2)%Q) /\
  (BoundedQueue.queue (q BoundedQueue.drop_oldest) = [1; 2] /\
   ~ (inject_Z (BoundedQueue.size (q BoundedQueue.drop_oldest)) <= 3 # 2)%Q) /\
  (BoundedQueue.queue (q BoundedQueue.drop_newest) = [1; 2] /\
   ~ (inject_Z (BoundedQueue.size (q BoundedQueue.drop_newest)) <= 3 # 2)%Q).
Proof.
  assert (H : forall strategy,
             let q := BoundedQueue.run (fun _ : Z => false)
                        [BoundedQueue.OpEnqueue 1; BoundedQueue.OpEnqueue 2]
                        (BoundedQueue.new
                           (BoundedQueue.mkConfig (3 # 2) strategy None)) in
             BoundedQueue.queue q = [1; 2] /\
             ~ (inject_Z (BoundedQueue.size q) <= 3 # 2)%Q).
  { intros strategy q.
    pose proof (fractional_maxSize_admits_two (fun _ : Z => false) strategy 1 2)
      as Hq.
    fold q in Hq. split; [exact Hq|].
    unfold BoundedQueue.size. rewrite Hq. unfold Qle. simpl. lia. }
  split; [unfold Qle; simpl; lia|].
  repeat split; apply H.
Qed.

Section RetryFacts.
Import Retry.
Context {W T : Type}.
Variable clock : W -> Z.
Variable random : W -> Q * W.
Variable sleep : Q -> W -> W.
Variable withTimeout : (W -> (T + JsError) * W) -> Z -> string -> W -> (T + JsError) * W.

(** The retry loop only appends to the log, the same entries whatever the
    log it starts from, and what it appends are attempts and retry
    callbacks: it never uses the breaker. *)
Lemma retryLoop_log (remaining : nat) :
  forall (attempt : Z) (fn : W -> (T + JsError) * W) (opts : RetryConfig W)
         (startTime : Z) (lastError : JsError) (w : W),
  exists (r : T + JsError) (w' : W) (tries : list Event),
    Forall (fun e => usesBreaker e = false) tries /\
    forall log : list Event,
      retryLoop clock random sleep remaining attempt fn opts startTime lastError w log
      = (r, w', log ++ tries).
Proof.
  induction remaining as [|remaining IH]; intros attempt fn opts startTime lastError w.
  - exists (inr lastError), w, []. split; [constructor|].
    intros log. simpl. rewrite app_nil_r. reflexivity.
  - simpl. destruct (fn w) as [[result|error] w1].
    + exists (inl result), w1, [Attempted attempt true].
      split; [repeat constructor | reflexivity].
    + match goal with
      | |- context [let '(shouldRetry, w2) := ?c in _] =>
          destruct c as [[[|]|thrown] w2]
      end.
      * match goal with
        | |- context [let '(delayMs, w3) := ?c in _] => destruct c as [delayMs w3]
        end.
        match goal with
        | |- context [callOptional ?cb ?info ?w0] =>
            set (i := info); destruct (callOptional cb i w0) as [[e|] w4]
        end.
        -- exists (inr e), w4, [Attempted attempt false; OnRetryCalled i].
           split; [repeat constructor|].
           intros log. rewrite <- app_assoc. reflexivity.
        -- destruct (IH (attempt + 1) fn opts startTime error (sleep delayMs w4))
             as (r & w' & tries & Hall & Heq).
           exists r, w', (Attempted attempt false :: OnRetryCalled i :: tries).
           split; [repeat constructor; exact Hall|].
           intros log. rewrite Heq, <- !app_assoc. reflexivity.
      * exists (inr error), w2, [Attempted attempt false].
        split; [repeat constructor | reflexivity].
      * exists (inr thrown), w2, [Attempted attempt false].
        split; [repeat constructor | reflexivity].
Qed.

Lemma retryAsync_log (fn : W -> (T + JsError) * W) (config : option (PartialRetryConfig W))
  (w : W) (log : list Event) :
  retryAsync clock random sleep fn config w log
  = (let '(r, w', tries) := retryAsync clock random sleep fn config w [] in
     (r, w', log ++ tries)) /\
  Forall (fun e => usesBreaker e = false)
    (snd (retryAsync clock random sleep fn config w [])).
Proof.
  unfold retryAsync.
  match goal with
  | |- context [retryLoop _ _ _ ?n ?a ?f ?o ?s ?e ?w0 log] =>
      destruct (retryLoop_log n a f o s e w0) as (r & w' & tries & Hall & Heq)
  end.
  rewrite (Heq log), (Heq []). simpl. split; [reflexivity | exact Hall].
Qed.

(** A rejecting admission check leaves the breaker as it was. *)
Lemma isAllowed_rejects (now : Z) (cb cb1 : CircuitBreaker.CircuitBreaker) :
  CircuitBreaker.isAllowed now cb = (false, cb1) -> cb1 = cb.
Proof.
  unfold CircuitBreaker.isAllowed.
  destruct (CircuitBreaker.state cb); [discriminate| |discriminate].
  destruct (CircuitBreaker.ext_geb _ _); [discriminate|].
  intros H. injection H as <-. reflexivity.
Qed.

(** A breaker method that made no transition calls no callback. *)
Lemma notifyStateChange_same (c : Circuit W) (w : W) :
  notifyStateChange c (breaker c) w = (None, w).
Proof. unfold notifyStateChange. rewrite skipn_all. reflexivity. Qed.

Lemma notifyStateChange_returns (c : Circuit W) :
  neverThrows (onStateChange c) ->
  forall (b : CircuitBreaker.CircuitBreaker) (w : W),
    fst (notifyStateChange c b w) = None.
Proof.
  intros Hret b w. unfold notifyStateChange.
  destruct (skipn _ _) as [|change rest]; [reflexivity | apply Hret].
Qed.

(** C5, as the code has it.  With a breaker configured, one resilient call
    checks admission once, with the breaker's [isAllowed], before the retry
    loop: a rejected call throws the circuit-open error with nothing
    attempted and the world untouched.  An admitted call runs the retry
    loop, whose attempts neither check nor record anything; then one
    outcome is recorded into the breaker cached under the call's name, for
    the call as a whole: [recordSuccess] when the loop returns,
    [recordFailure] when it throws anything but a circuit-open error,
    nothing when it throws a circuit-open error.  The [onStateChange] of the
    breaker and [onSuccess] are taken to return; the other callbacks may
    throw. *)
Theorem C5_admission_checked_once_per_call :
  forall (fn : W -> (T + JsError) * W) (config : ResilientCallConfig W)
         (overrides : PartialBreakerConfig W) (circuitBreakers : Registry W) (w : W),
    circuitBreaker config = BreakerEnabled overrides ->
    let c := circuitFor config overrides circuitBreakers in
    neverThrows (onStateChange c) ->
    neverThrows (onSuccess config) ->
    let admission := CircuitBreaker.isAllowed (clock w) (breaker c) in
    let cb1 := snd admission in
    let w0 := snd (notifyStateChange c cb1 w) in
    let cached (b : CircuitBreaker.CircuitBreaker) : Registry W :=
      <[name config := set_breaker b c]> circuitBreakers in
    let '(result, circuitBreakers', w', log) :=
      resilientCall clock random sleep withTimeout fn config circuitBreakers w in
    if fst admission then
      let '(r, w1, tries) :=
        retryAsync clock random sleep (attemptFn withTimeout fn config)
          (retry config) w0 [] in
      Forall (fun e => usesBreaker e = false) tries /\
      match r with
      | inl value =>
          result = inl value /\
          circuitBreakers' = cached (CircuitBreaker.recordSuccess (clock w1) cb1) /\
          exists ms : Z,
            log = AdmissionChecked true :: tries ++ [SuccessRecorded; OnSuccessCalled ms]
      | inr error =>
          (exists thrown : JsError, result = inr thrown) /\
          if isCircuitBreakerOpenError error then
            circuitBreakers' = cached cb1 /\
            exists (n : Q) (ms : Z),
              log = AdmissionChecked true :: tries ++ [OnFailureCalled error n ms]
          else
            circuitBreakers' = cached (CircuitBreaker.recordFailure (clock w1) cb1) /\
            exists (n : Q) (ms : Z),
              log = AdmissionChecked true :: tries
                    ++ [FailureRecorded; OnFailureCalled error n ms]
      end
    else
      result = inr (CircuitBreakerOpenError
                      (CircuitBreaker.mkOpenError (name config)
                         (CircuitBreaker.getStats cb1))) /\
      circuitBreakers' = cached cb1 /\
      w' = w /\
      log = [AdmissionChecked false].
Proof.
  intros fn config overrides circuitBreakers w Hcb c Hchange Hsuccess
    admission cb1 w0 cached.
  unfold resilientCall. rewrite Hcb. fold c.
  subst admission cb1 w0.
  destruct (CircuitBreaker.isAllowed (clock w) (breaker c)) as [allowed b] eqn:Hadm.
  cbn [fst snd].
  pose proof (notifyStateChange_returns c Hchange b w) as Hn.
  destruct (notifyStateChange c b w) as [thrown w0] eqn:Hnotify.
  cbn [fst snd] in *. subst thrown.
  destruct allowed; cbn [negb].
  - unfold tryBlock.
    destruct (retryAsync_log (attemptFn withTimeout fn config) (retry config) w0
                [AdmissionChecked true]) as [Heq Hall].
    rewrite Heq.
    destruct (retryAsync clock random sleep (attemptFn withTimeout fn config)
                (retry config) w0 []) as [[r w1] tries].
    cbn [snd] in Hall.
    destruct r as [value|error].
    + unfold recordSuccessOn. cbn [breaker set_breaker onStateChange].
      pose proof (notifyStateChange_returns (set_breaker b c) Hchange
                    (CircuitBreaker.recordSuccess (clock w1) b) w1) as Hn1.
      destruct (notifyStateChange (set_breaker b c) _ w1) as [thrown w2].
      cbn [fst] in Hn1. subst thrown.
      pose proof (Hsuccess (clock w2 - clock w) w2) as Hs.
      destruct (callOptional (onSuccess config) (clock w2 - clock w) w2) as [thrown w3].
      cbn [fst] in Hs. subst thrown. cbn [store].
      split; [exact Hall|]. split; [reflexivity|].
      split; [unfold cached, Registry; rewrite insert_insert_eq; reflexivity|].
      exists (clock w2 - clock w). cbn [app]. rewrite <- app_assoc. reflexivity.
    + unfold catchBlock, recordFailureOn. cbn [breaker set_breaker onStateChange].
      destruct (isCircuitBreakerOpenError error).
      * destruct (callOptional (onFailure config) _ w1) as [thrown1 w2].
        cbn [store]. split; [exact Hall|]. split; [eexists; reflexivity|].
        split; [unfold cached, Registry; rewrite insert_insert_eq; reflexivity|].
        do 2 eexists. reflexivity.
      * pose proof (notifyStateChange_returns (set_breaker b c) Hchange
                      (CircuitBreaker.recordFailure (clock w1) b) w1) as Hn1.
        destruct (notifyStateChange (set_breaker b c) _ w1) as [thrown w2].
        cbn [fst] in Hn1. subst thrown.
        destruct (callOptional (onFailure config) _ w2) as [thrown1 w3].
        cbn [store]. split; [exact Hall|]. split; [eexists; reflexivity|].
        split; [unfold cached, Registry; rewrite insert_insert_eq; reflexivity|].
        do 2 eexists. cbn [app]. rewrite <- app_assoc. reflexivity.
  - pose proof (isAllowed_rejects _ _ _ Hadm) as ->.
    rewrite notifyStateChange_same in Hnotify. injection Hnotify as <-.
    repeat split.
Qed.

(** The [try] block encloses [recordSuccess] and [onSuccess]: the
    operation succeeds at once, [onSuccess] throws, and the [catch] block
    records a failure after the success already recorded, for one admitted
    call that made one attempt. *)
Lemma throwing_onSuccess_records_success_and_failure :
  let '(r, circuitBreakers, calls, log) :=
    sampleRun 0 throwingOnSuccessConfig in
  r = inr (Error "onSuccess failed") /\
  log = [AdmissionChecked true; Attempted 1 true; SuccessRecorded;
         OnSuccessCalled 1; FailureRecorded;
         OnFailureCalled (Error "onSuccess failed") 3 1] /\
  (CircuitBreaker.totalSuccesses ∘ breaker <$> circuitBreakers !! "api"%string)
    = Some 1 /\
  (CircuitBreaker.totalFailures ∘ breaker <$> circuitBreakers !! "api"%string)
    = Some 1 /\
  (CircuitBreaker.totalCalls ∘ breaker <$> circuitBreakers !! "api"%string)
    = Some 2.
Proof. vm_compute. repeat split; reflexivity. Qed.

End RetryFacts.

(** The reading of C5 as stated is met by a log in which each attempt
    stands between its own check and its own record. *)
Example eachAttemptCheckedAndRecorded_holds :
  Retry.eachAttemptCheckedAndRecorded
    [Retry.AdmissionChecked true; Retry.Attempted 1 false; Retry.FailureRecorded;
     Retry.AdmissionChecked true; Retry.Attempted 2 true; Retry.SuccessRecorded;
     Retry.OnSuccessCalled 10] = true.
Proof. reflexivity. Qed.

(** C5, as stated, fails.  The operation fails twice and then succeeds
    under the default three attempts: three attempts are made after a
    single admission check, and the two failed attempts leave no trace in
    the breaker, whose only recorded call is the final success. *)
Lemma C5_attempts_are_not_checked_or_recorded :
  let '(r, circuitBreakers, calls, log) := Retry.sampleCall 2 in
  r = inl tt /\
  Retry.count Retry.isAttempt log = 3%nat /\
  Retry.count Retry.isFailedAttempt log = 2%nat /\
  Retry.count Retry.isAdmission log = 1%nat /\
  Retry.count Retry.isRecord log = 1%nat /\
  Retry.eachAttemptCheckedAndRecorded log = false /\
  (CircuitBreaker.totalFailures ∘ Retry.breaker <$> circuitBreakers !! "api"%string)
    = Some 0 /\
  (CircuitBreaker.totalCalls ∘ Retry.breaker <$> circuitBreakers !! "api"%string)
    = Some 1.
Proof. vm_compute. repeat split; reflexivity. Qed.

(** The run the theorem above is applied to: the sample call whose
    operation fails twice, under a new breaker with no callbacks. *)
Lemma C5_admission_checked_once_per_call_witness :
  let '(result, circuitBreakers, calls, log) := Retry.sampleCall 2 in
  let tries :=
    [Retry.Attempted 1 false;
     Retry.OnRetryCalled
       (Retry.mkRetryInfo 1 3 300 (Retry.Error "connection reset") 1);
     Retry.Attempted 2 false;
     Retry.OnRetryCalled
       (Retry.mkRetryInfo 2 3 600 (Retry.Error "connection reset") 2);
     Retry.Attempted 3 true] in
  Forall (fun e => Retry.usesBreaker e = false) tries /\
  result = inl tt /\
  circuitBreakers
    = <["api"%string :=
          Retry.mkCircuit
            (CircuitBreaker.recordSuccess 1003
               (CircuitBreaker.new
                  (Retry.breakerConfig "api" (@Retry.noBreakerOverrides nat))))
            None]> ∅ /\
  exists ms : Z,
    log = Retry.AdmissionChecked true
          :: tries ++ [Retry.SuccessRecorded; Retry.OnSuccessCalled ms].
Proof.
  refine (C5_admission_checked_once_per_call
            (fun calls => 1000 + Z.of_nat calls) (fun w => ((1 # 2)%Q, w))
            (fun _ w => w) (fun attempt _ _ => attempt)
            (Retry.flaky 2) Retry.sampleConfig Retry.noBreakerOverrides ∅ 0%nat
            _ _ _).
  - reflexivity.
  - intros a w. reflexivity.
  - intros a w. reflexivity.
Defined.

Section HeartbeatMonitorFacts.
Import HeartbeatMonitor.

Lemma silentChecks_checksAt (n : nat) :
  forall (from : Z) (m : HeartbeatMonitor),
    silentChecks n from m = checksAt (checkTimes n from (intervalMs (config m))) m.
Proof.
  induction n as [|n IH]; intros from m; [reflexivity|].
  simpl. rewrite IH.
  assert (Hcfg : config (checkHeartbeat (from + intervalMs (config m)) m) = config m).
  { unfold checkHeartbeat. destruct (started m); [|reflexivity].
    destruct (lastHeartbeat m); [|reflexivity].
    destruct (_ <? _); reflexivity. }
  rewrite Hcfg. reflexivity.
Qed.

(** One periodic check of a started monitor that has heard a heartbeat at
    [last]: nothing when the check is not late; one more miss when it is,
    with a "dead" call exactly when the count reaches the threshold. *)
Lemma checkHeartbeat_heard (now last : Z) (m : HeartbeatMonitor) :
  started m = true -> lastHeartbeat m = Some last ->
  let m' := checkHeartbeat now m in
  started m' = true /\ lastHeartbeat m' = Some last /\ config m' = config m /\
  if isLate (timeoutMs (config m)) last now then
    missedCount m' = missedCount m + 1 /\
    deadCalls m' =
      (deadCalls m +
       (if (missedThreshold (config m) <=? missedCount m + 1)%Z then 1 else 0))%nat
  else m' = m.
Proof.
  intros Hs Hl. unfold checkHeartbeat, isLate. rewrite Hs, Hl. simpl.
  destruct (timeoutMs (config m) <? now - last); simpl.
  - repeat split; try assumption.
    unfold deadCalls. simpl.
    destruct (missedThreshold (config m) <=? missedCount m + 1).
    + rewrite <- app_assoc, List.filter_app, length_app. reflexivity.
    + rewrite List.filter_app, length_app. simpl. lia.
  - repeat split; assumption.
Qed.

(** With the threshold at three: once the count is at two or more, every
    late check calls "dead". *)
Lemma checksAt_past_threshold (last : Z) (times : list Z) :
  forall m : HeartbeatMonitor,
    config m = DEFAULT_CONFIG -> started m = true -> lastHeartbeat m = Some last ->
    2 <= missedCount m ->
    deadCalls (checksAt times m) =
      (deadCalls m + length (List.filter (isLate 15000 last) times))%nat /\
    missedCount (checksAt times m) =
      missedCount m + Z.of_nat (length (List.filter (isLate 15000 last) times)).
Proof.
  induction times as [|now times IH]; intros m Hc Hs Hl Hm; simpl.
  - split; lia.
  - destruct (checkHeartbeat_heard now last m Hs Hl) as (Hs' & Hl' & Hc' & Hstep).
    rewrite Hc in Hstep. simpl in Hstep.
    destruct (isLate 15000 last now).
    + destruct Hstep as [Hm' Hd'].
      destruct (Z.leb_spec 3 (missedCount m + 1)); [|lia].
      destruct (IH (checkHeartbeat now m)) as [Hd Hmc]; try assumption; try congruence; [lia|].
      change (checksAt (now :: times) m) with (checksAt times (checkHeartbeat now m)).
      rewrite Hd, Hmc, Hd', Hm'. simpl. split; lia.
    + change (checksAt (now :: times) m) with (checksAt times (checkHeartbeat now m)).
      rewrite Hstep. apply IH; assumption.
Qed.

(** C2, as the code has it.  A started monitor with [intervalMs = 5000],
    [timeoutMs = 15000], [missedThreshold = 3] that has heard a heartbeat
    at [last] and has no miss counted: each check made more than 15 s
    after [last] counts one miss, and "dead" is called at every such check
    from the third on, so after [n] late checks it has been called
    [n - 2] times, not once. *)
Theorem C2_dead_at_every_check_past_threshold :
  forall (m : HeartbeatMonitor) (last : Z) (times : list Z),
    config m = DEFAULT_CONFIG ->
    started m = true ->
    lastHeartbeat m = Some last ->
    missedCount m = 0 ->
    let late := length (List.filter (isLate 15000 last) times) in
    missedCount (checksAt times m) = Z.of_nat late /\
    deadCalls (checksAt times m) = (deadCalls m + (late - 2))%nat.
Proof.
  intros m last times Hc Hs Hl Hm late. subst late. revert m Hc Hs Hl Hm.
  assert (Hgen : forall (times : list Z) (m : HeartbeatMonitor),
            config m = DEFAULT_CONFIG -> started m = true ->
            lastHeartbeat m = Some last -> 0 <= missedCount m <= 2 ->
            missedCount (checksAt times m) =
              missedCount m + Z.of_nat (length (List.filter (isLate 15000 last) times)) /\
            deadCalls (checksAt times m) =
              (deadCalls m + (length (List.filter (isLate 15000 last) times)
                              - Z.to_nat (2 - missedCount m)))%nat).
  { clear times. induction times as [|now times IH]; intros m Hc Hs Hl Hm; simpl.
    - split; lia.
    - destruct (checkHeartbeat_heard now last m Hs Hl) as (Hs' & Hl' & Hc' & Hstep).
      rewrite Hc in Hstep. simpl in Hstep.
      change (checksAt (now :: times) m) with (checksAt times (checkHeartbeat now m)).
      destruct (isLate 15000 last now).
      + destruct Hstep as [Hm' Hd'].
        destruct (Z.leb_spec 3 (missedCount m + 1)) as [Hreach|Hbelow].
        * assert (Hm2 : missedCount m = 2) by lia.
          destruct (checksAt_past_threshold last times (checkHeartbeat now m))
            as [Hd Hmc]; try assumption; try congruence; [lia|].
          rewrite Hd, Hmc, Hd', Hm', Hm2. simpl. split; lia.
        * destruct (IH (checkHeartbeat now m)) as [Hmc Hd];
            try assumption; try congruence; [lia|].
          rewrite Hd, Hmc, Hd', Hm'. simpl. split; lia.
      + rewrite Hstep. apply IH; assumption. }
  intros m Hc Hs Hl Hm.
  destruct (Hgen times m Hc Hs Hl ltac:(lia)) as [Hmc Hd].
  rewrite Hmc, Hd, Hm. simpl. split; [lia | reflexivity].
Qed.

(** The other branch of the same check: a monitor that has never heard a
    heartbeat counts misses but calls no callback, however many checks go
    by. *)
Lemma silentChecks_never_heard (n : nat) :
  forall (from : Z) (m : HeartbeatMonitor),
    lastHeartbeat m = None ->
    calls (silentChecks n from m) = calls m /\
    lastHeartbeat (silentChecks n from m) = None.
Proof.
  induction n as [|n IH]; intros from m Hnone; simpl; [auto|].
  assert (Hstep : calls (checkHeartbeat (from + intervalMs (config m)) m) = calls m /\
                  lastHeartbeat (checkHeartbeat (from + intervalMs (config m)) m) = None).
  { unfold checkHeartbeat. rewrite Hnone. destruct (started m); simpl; auto. }
  destruct Hstep as (Hc & Hl).
  destruct (IH (from + intervalMs (config m)) _ Hl) as [Hc' Hl'].
  split; [rewrite Hc', Hc; reflexivity | exact Hl'].
Qed.

Lemma never_heard_monitor_never_reports_dead :
  forall (startedAtMs : Z) (checks : nat),
    deadCalls (silentChecks checks startedAtMs (start (new DEFAULT_CONFIG))) = 0%nat /\
    missedCount (silentChecks 9 startedAtMs (start (new DEFAULT_CONFIG))) = 9.
Proof.
  intros startedAtMs checks. split; [|reflexivity].
  unfold deadCalls.
  destruct (silentChecks_never_heard checks startedAtMs (start (new DEFAULT_CONFIG)) eq_refl)
    as [Hc _].
  rewrite Hc. reflexivity.
Qed.

End HeartbeatMonitorFacts.

(** C2, as stated, fails.  The monitor of the claim has heard one heartbeat
    at 1 s and is started at 2 s; no heartbeat arrives in the 45 s that
    follow.  The nine periodic checks call "dead" five times, at 27 s,
    32 s, 37 s, 42 s and 47 s. *)
Lemma C2_dead_called_five_times_in_45s :
  let m := HeartbeatMonitor.silentChecks 9 2000 HeartbeatMonitor.heardOnce in
  HeartbeatMonitor.deadCalls m = 5%nat /\
  HeartbeatMonitor.deadCalls m <> 1%nat /\
  List.filter HeartbeatMonitor.isDead (HeartbeatMonitor.calls m)
    = [HeartbeatMonitor.onDead 3 (Some 1000); HeartbeatMonitor.onDead 4 (Some 1000);
       HeartbeatMonitor.onDead 5 (Some 1000); HeartbeatMonitor.onDead 6 (Some 1000);
       HeartbeatMonitor.onDead 7 (Some 1000)].
Proof. vm_compute. split; [reflexivity|]. split; [discriminate | reflexivity]. Qed.

(** The theorem at that monitor and its nine checks, seven of them late. *)
Lemma C2_dead_at_every_check_past_threshold_witness :
  let times := HeartbeatMonitor.checkTimes 9 2000 5000 in
  HeartbeatMonitor.missedCount (HeartbeatMonitor.checksAt times HeartbeatMonitor.heardOnce) = 7 /\
  HeartbeatMonitor.deadCalls (HeartbeatMonitor.checksAt times HeartbeatMonitor.heardOnce) = 5%nat.
Proof.
  exact (C2_dead_at_every_check_past_threshold HeartbeatMonitor.heardOnce 1000
           (HeartbeatMonitor.checkTimes 9 2000 5000) eq_refl eq_refl eq_refl eq_refl).
Defined.

Section WorkerManagerFacts.
Import WorkerManager.

(** What [stop] does when it gets past its first statement: auto-restart
    is off and the restart timer the manager holds is cleared. *)
Lemma stop_with_worker_cancels_restart (s : System) (p : Z) :
  worker (mgr s) = Some p ->
  state (mgr s) <> stopped -> state (mgr s) <> stopping ->
  shouldRestart (mgr (stop s)) = false /\
  restartTimer (mgr (stop s)) = None /\
  state (mgr (stop s)) = stopping /\
  (forall id : nat, restartTimer (mgr s) = Some id -> isPending id (rt (stop s)) = false).
Proof.
  intros Hw Hs1 Hs2. unfold stop. rewrite Hw.
  assert (Hclear : forall (id : nat) (r : Runtime), isPending id (clearTimer id r) = false).
  { intros id r. unfold isPending, clearTimer. simpl.
    induction (pendingRestarts r) as [|t l IH]; simpl; [reflexivity|].
    destruct (Nat.eqb (fst t) id) eqn:E; simpl; [exact IH|].
    rewrite E. exact IH. }
  destruct (state (mgr s)) eqn:Hst; try congruence;
    (simpl; destruct (restartTimer (mgr s)) as [id|] eqn:Ht;
     unfold sendShutdown; simpl; rewrite Hw; simpl; rewrite ?Ht;
     (split; [reflexivity|]); (split; [reflexivity|]); (split; [reflexivity|]);
     intros id' Hid; [|discriminate];
     injection Hid as <-; exact (Hclear id (rt s))).
Qed.

(** C3.  What the code does when [stop] is called while no child handle is
    held, as in the [crashed] state with a restart timer pending: its
    first statement returns, so nothing changes, auto-restart stays as it
    was and the timer stays set; when that timer fires, one more worker is
    spawned. *)
Theorem C3_stop_leaves_pending_restart :
  forall (s : System) (id : nat) (tStop tFire : Z),
    worker (mgr s) = None ->
    isPending id (rt s) = true ->
    stop s = s /\
    step tStop CallStop s = s /\
    spawns (step tFire (RestartTimer id) (step tStop CallStop s)) = S (spawns s).
Proof.
  intros s id tStop tFire Hw Hpending.
  assert (Hstop : stop s = s) by (unfold stop; rewrite Hw; reflexivity).
  assert (Hstep : step tStop CallStop s = s) by (unfold step; simpl; exact Hstop).
  split; [exact Hstop|]. split; [exact Hstep|].
  rewrite Hstep. unfold step. simpl. unfold restartTimerFired. rewrite Hpending. simpl.
  unfold spawns. simpl. rewrite length_app. simpl. lia.
Qed.

(** The state of the claim, reached from the constructor: the worker
    started, ran and exited with code 1.  The manager is [crashed], its
    restart timer is pending and auto-restart is on; a graceful stop at
    5.2 s changes none of this, and the timer firing at 6.1 s spawns the
    second worker. *)
Lemma C3_stop_leaves_pending_restart_witness :
  let s := run crashAfterStart (new DEFAULT_CONFIG) in
  (state (mgr s) = crashed /\ restartTimer (mgr s) = Some 0%nat /\
   shouldRestart (mgr s) = true /\ spawns s = 1%nat) /\
  (stop s = s /\
   step 5200 CallStop s = s /\
   spawns (step 6100 (RestartTimer 0) (step 5200 CallStop s)) = 2%nat).
Proof.
  split.
  - repeat split; reflexivity.
  - apply (C3_stop_leaves_pending_restart
             (run crashAfterStart (new DEFAULT_CONFIG)) 0%nat 5200 6100);
      reflexivity.
Defined.

End WorkerManagerFacts.

Section AIRecoveryFacts.
Import AIRecovery.

Lemma filter_filter_andb {A : Type} (p q : A -> bool) (l : list A) :
  List.filter q (List.filter p l) = List.filter (fun x => p x && q x) l.
Proof.
  induction l as [|x l IH]; simpl; [reflexivity|].
  destruct (p x); simpl; [destruct (q x)|]; rewrite IH; reflexivity.
Qed.

(** C8.  Whenever at least three failures of the rolling history are from
    the last five minutes with a recorded uptime under 10000 ms, the
    heuristic decision is [escalate] with confidence 0.9, whatever the
    failure reason, the worker statistics and [consecutiveCrashes] are;
    and so is the decision [decide] returns (which ends once the history
    size is not negative). *)
Theorem C8_boot_loop_escalates :
  forall (now : Z) (r : AIRecovery) (context : RecoveryContext),
    (3 <= length (bootLoopFailures now r))%nat ->
    action (makeHeuristicDecision now r context) = escalate /\
    confidence (makeHeuristicDecision now r context) = 9 # 10 /\
    (0 <= historySize (config r) ->
     action (fst (decide now context r)) = escalate /\
     confidence (fst (decide now context r)) = 9 # 10).
Proof.
  intros now r context Hboot.
  assert (Hd : action (makeHeuristicDecision now r context) = escalate /\
               confidence (makeHeuristicDecision now r context) = 9 # 10).
  { unfold makeHeuristicDecision, getRecentFailures.
    rewrite filter_filter_andb.
    change (5 * 60 * 1000) with 300000.
    fold (bootLoopFailures now r).
    destruct (Z.leb_spec 3 (Z.of_nat (length (bootLoopFailures now r)))); [|lia].
    split; reflexivity. }
  destruct Hd as [Ha Hc].
  split; [exact Ha|]. split; [exact Hc|].
  intros _. unfold decide.
  destruct (enabled (config r) && hasApiKey (config r)); simpl; auto.
Qed.

End AIRecoveryFacts.

Section SupervisorFacts.
Import Supervisor.

Lemma stop_from_failed (by_ : StopCaller) (s : Supervisor) :
  state s = failed ->
  stop by_ s =
  set_awaitingStop (Some by_)
    (set_workerManager
       (WorkerManager.stop (workerManager s))
       (set_shutdownRequested true (set_state stopping s))).
Proof. intros H. unfold stop. rewrite H. reflexivity. Qed.

(** C4.  What the code does with a [give-up] decision.  [failed] is
    assigned and, in the same run of code, [stop()] assigns [stopping],
    requests shutdown and calls the worker manager's [stop()]; when that
    has settled [stop()] assigns [stopped].  The state is [failed]
    afterwards only if the separate crash ceiling of the last statement of
    [handleWorkerFailure] is reached as well; below it the supervisor ends
    [stopped], with no "failed" event. *)
Theorem C4_giving_up_ends_stopped :
  forall (s : Supervisor) (decision : AIRecovery.RecoveryDecision) (now : Z),
    AIRecovery.action decision = AIRecovery.giveUp ->
    let s1 := handleWorkerFailure_decided decision now s in
    let s2 := resumeAfterStop s1 in
    (assigned s1 = assigned s ++ [failed; stopping] /\
     state s1 = stopping /\
     shutdownRequested s1 = true /\
     workerManager s1 = WorkerManager.stop (workerManager s)) /\
    (consecutiveCrashes s < maxConsecutiveCrashes (config s) ->
     state s2 = stopped /\
     assigned s2 = assigned s ++ [failed; stopping; stopped] /\
     failedEvents s2 = failedEvents s) /\
    (maxConsecutiveCrashes (config s) <= consecutiveCrashes s ->
     state s2 = failed /\
     assigned s2 = assigned s ++ [failed; stopping; stopped; failed]).
Proof.
  intros s decision now Hgive s1 s2.
  assert (Hs1 : s1 =
    stop byGiveUp
      (set_state failed
         (emit (ev_recovery_decision decision)
            (set_decisions (pushDecision decision (recoveryDecisions s))
               (Some AIRecovery.giveUp) (Some now) s)))).
  { subst s1. unfold handleWorkerFailure_decided, executeRecoveryAction.
    rewrite Hgive. reflexivity. }
  rewrite stop_from_failed in Hs1 by reflexivity.
  split.
  { rewrite Hs1. simpl. rewrite <- app_assoc. repeat split; reflexivity. }
  assert (Hf : forall l e, (forall r, e <> ev_failed r) ->
            List.filter (fun e => match e with ev_failed _ => true | _ => false end)
              (l ++ [e]) =
            List.filter (fun e => match e with ev_failed _ => true | _ => false end) l).
  { intros l e He. rewrite List.filter_app. simpl.
    destruct e; try (rewrite app_nil_r; reflexivity).
    exfalso. exact (He reason eq_refl). }
  split.
  - intros Hlt. subst s2. rewrite Hs1. unfold resumeAfterStop. simpl.
    unfold checkFailureThreshold. simpl.
    destruct (Z.leb_spec (maxConsecutiveCrashes (config s)) (consecutiveCrashes s)); [lia|].
    simpl. split; [reflexivity|]. split.
    + rewrite <- !app_assoc. reflexivity.
    + unfold failedEvents. simpl.
      rewrite Hf by (intros; discriminate).
      rewrite Hf by (intros; discriminate). reflexivity.
  - intros Hge. subst s2. rewrite Hs1. unfold resumeAfterStop. simpl.
    unfold checkFailureThreshold. simpl.
    destruct (Z.leb_spec (maxConsecutiveCrashes (config s)) (consecutiveCrashes s)); [|lia].
    simpl. split; [reflexivity|]. rewrite <- !app_assoc. reflexivity.
Qed.

(** The theorem at the supervisor of the sample run, when the decision for
    its eighth crash is in. *)
Lemma C4_giving_up_ends_stopped_witness :
  exists decision : AIRecovery.RecoveryDecision,
    snd eighthCrashHandled = Some decision /\
    AIRecovery.action decision = AIRecovery.giveUp /\
    let s := fst eighthCrashHandled in
    let s1 := handleWorkerFailure_decided decision 31500 s in
    state s = running /\
    consecutiveCrashes s = 8 /\
    state s1 = stopping /\
    state (resumeAfterStop s1) = stopped /\
    assigned (resumeAfterStop s1) = [starting; running; failed; stopping; stopped].
Proof.
  eexists. split; [vm_compute; reflexivity|].
  split; [reflexivity|].
  intros s s1.
  match goal with
  | s1 := handleWorkerFailure_decided ?d 31500 _ |- _ =>
      pose proof (C4_giving_up_ends_stopped s d 31500 eq_refl) as H
  end.
  fold s1 in H.
  destruct H as ((_ & Hstopping & _) & Hbelow & _).
  destruct (Hbelow ltac:(vm_compute; reflexivity)) as (Hstopped & Hassigned & _).
  split; [vm_compute; reflexivity|]. split; [vm_compute; reflexivity|].
  split; [exact Hstopping|]. split; [exact Hstopped|].
  rewrite Hassigned. vm_compute. reflexivity.
Defined.

(** [failed] is no terminal state of [start()] either. *)
Lemma start_leaves_failed (s : Supervisor) :
  state s = failed -> state (start s) = starting.
Proof. intros H. unfold start. rewrite H. reflexivity. Qed.

(** The same outcome reached from the constructor by events alone: after
    the eighth crash the engine gives up and the supervisor goes through
    [failed], [stopping] and [stopped] within that one turn.  The worker
    manager's [stop()] found no child handle, so a restart timer is still
    pending, and when it fires five seconds later a ninth worker is
    spawned under the stopped supervisor. *)
Lemma giving_up_after_startup_crashes :
  let s := run (startupCrashes ++ [eighthCrash]) (new sampleConfig) in
  let later := turn 36500 (Deliver (WorkerManager.RestartTimer 14)) s in
  lastRecoveryAction s = Some AIRecovery.giveUp /\
  consecutiveCrashes s = 8 /\
  state s = stopped /\
  assigned s = [starting; running; failed; stopping; stopped] /\
  failedEvents s = [] /\
  WorkerManager.shouldRestart (WorkerManager.mgr (workerManager s)) = true /\
  WorkerManager.restartTimer (WorkerManager.mgr (workerManager s)) = Some 14%nat /\
  WorkerManager.spawns (workerManager s) = 8%nat /\
  WorkerManager.spawns (workerManager later) = 9%nat /\
  state later = stopped.
Proof. vm_compute. repeat split; reflexivity. Qed.

End SupervisorFacts.

(** * The theorems at concrete inputs *)

(** C1 at a breaker with the default configuration (threshold 5, reset
    timeout 30 s) and failures at 1 s, 2 s, 3 s, 4 s and 5 s. *)
Lemma C1_breaker_opens_rejects_then_probes_witness :
  let cb := CircuitBreaker.new CircuitBreaker.DEFAULT_CONFIG in
  let opened := CircuitBreaker.recordFailures ([1000; 2000; 3000; 4000] ++ [5000]) cb in
  CircuitBreaker.state (CircuitBreaker.recordFailures [1000; 2000; 3000; 4000] cb)
    = CircuitBreaker.CLOSED /\
  CircuitBreaker.state opened = CircuitBreaker.OPEN /\
  CircuitBreaker.isAllowed 34999 opened = (false, opened) /\
  exists probing : CircuitBreaker.CircuitBreaker,
    CircuitBreaker.admissionChecks ([6000; 34999] ++ [35000]) opened
      = ([false; false] ++ [true], probing) /\
    CircuitBreaker.state probing = CircuitBreaker.HALF_OPEN.
Proof.
  pose proof (C1_breaker_opens_rejects_then_probes
                (CircuitBreaker.new CircuitBreaker.DEFAULT_CONFIG)
                [1000; 2000; 3000; 4000] 5000 eq_refl eq_refl ltac:(lia)) as H.
  destruct H as (Hclosed & Hopen & Hearly & _ & Hlate).
  split; [exact (Hclosed 4%nat ltac:(simpl; lia))|].
  split; [exact Hopen|].
  split; [apply Hearly; simpl; lia|].
  apply (Hlate [6000; 34999] 35000).
  - repeat constructor; simpl; lia.
  - simpl. lia.
Defined.

(** A queue of whole numbers of capacity two, filled with 1 and 2. *)
Lemma C6_reject_full_queue_raises_witness :
  let q := BoundedQueue.run (fun _ : Z => false)
             [BoundedQueue.OpEnqueue 1; BoundedQueue.OpEnqueue 2]
             (BoundedQueue.new (BoundedQueue.mkConfig 2%Q BoundedQueue.reject None)) in
  fst (BoundedQueue.enqueue (fun _ => false) 3 q)
    = BoundedQueue.ThrewQueueFull (BoundedQueue.mkQueueFullError "unnamed" 2 2%Q) /\
  BoundedQueue.queue (snd (BoundedQueue.enqueue (fun _ => false) 3 q)) = [1; 2] /\
  (inject_Z (BoundedQueue.size (snd (BoundedQueue.enqueue (fun _ => false) 3%Z q)))
     == 2)%Q /\
  BoundedQueue.totalRejected (snd (BoundedQueue.enqueue (fun _ => false) 3 q)) = 1.
Proof.
  apply (C6_reject_full_queue_raises (fun _ : Z => false)
           (BoundedQueue.run (fun _ : Z => false)
              [BoundedQueue.OpEnqueue 1; BoundedQueue.OpEnqueue 2]
              (BoundedQueue.new (BoundedQueue.mkConfig 2%Q BoundedQueue.reject None)))
           3).
  - reflexivity.
  - vm_compute. reflexivity.
Defined.

Lemma C7_drop_oldest_evicts_head_witness :
  let q := BoundedQueue.run (fun _ : Z => false)
             [BoundedQueue.OpEnqueue 1; BoundedQueue.OpEnqueue 2]
             (BoundedQueue.new (BoundedQueue.mkConfig 2%Q BoundedQueue.drop_oldest None)) in
  let q' := snd (BoundedQueue.enqueue (fun _ => false) 3 q) in
  let served := BoundedQueue.dequeueMany (fun _ => false) (length (BoundedQueue.queue q')) q' in
  fst (BoundedQueue.enqueue (fun _ => false) 3 q) = BoundedQueue.Enqueued true /\
  (inject_Z (BoundedQueue.size q') == 2)%Q /\
  BoundedQueue.queue q' = [2] ++ [3] /\
  fst served = map Some ([2] ++ [3]) /\
  BoundedQueue.dequeue (fun _ => false) (snd served) = (None, snd served) /\
  (~ In 1 [2] -> 1 <> 3 -> ~ In (Some 1) (fst served)).
Proof.
  apply (C7_drop_oldest_evicts_head (fun _ : Z => false)
           (BoundedQueue.run (fun _ : Z => false)
              [BoundedQueue.OpEnqueue 1; BoundedQueue.OpEnqueue 2]
              (BoundedQueue.new (BoundedQueue.mkConfig 2%Q BoundedQueue.drop_oldest None)))
           1 [2] 3).
  - reflexivity.
  - reflexivity.
  - vm_compute. reflexivity.
Defined.

(** A queue of capacity two under [drop-oldest], driven through every
    operation. *)
Lemma C9_size_never_exceeds_whole_maxSize_witness :
  let q := BoundedQueue.run (fun _ : Z => false)
       [BoundedQueue.OpEnqueue 1; BoundedQueue.OpTryEnqueue 2; BoundedQueue.OpEnqueue 3;
        BoundedQueue.OpDequeue; BoundedQueue.OpEnqueue 4; BoundedQueue.OpEnqueue 5;
        BoundedQueue.OpClear; BoundedQueue.OpTryEnqueue 6]
       (BoundedQueue.new (BoundedQueue.mkConfig 2%Q BoundedQueue.drop_oldest None)) in
  BoundedQueue.size q <= 2 /\
  (forall n : Z, (2 == inject_Z n)%Q -> (inject_Z (BoundedQueue.size q) <= 2)%Q).
Proof.
  apply (C9_size_never_exceeds_whole_maxSize (fun _ : Z => false)
           (BoundedQueue.mkConfig 2%Q BoundedQueue.drop_oldest None)).
  unfold Qle. simpl. lia.
Defined.

(** Three crashes within two minutes, each after less than ten seconds of
    uptime, then a hang reported with twelve consecutive crashes counted. *)
Lemma C8_boot_loop_escalates_witness :
  let d := AIRecovery.mkDecision AIRecovery.restart "" (7 # 10) None [] 0 in
  let r := AIRecovery.mkEngine AIRecovery.DEFAULT_CONFIG
             [AIRecovery.mkRecord 1000000 AIRecovery.crash 4000 d;
              AIRecovery.mkRecord 1060000 AIRecovery.crash 2500 d;
              AIRecovery.mkRecord 1120000 AIRecovery.crash 9999 d] in
  let context :=
    AIRecovery.mkContext AIRecovery.hang []
      (AIRecovery.mkStatsView "running"
         (AIRecovery.mkWorkerView "hung" 3 70000 (AIRecovery.mkHeartbeatView false 3 10)))
      12 in
  AIRecovery.action (AIRecovery.makeHeuristicDecision 1180000 r context) = AIRecovery.escalate /\
  AIRecovery.confidence (AIRecovery.makeHeuristicDecision 1180000 r context) = 9 # 10 /\
  (0 <= AIRecovery.historySize (AIRecovery.config r) ->
   AIRecovery.action (fst (AIRecovery.decide 1180000 context r)) = AIRecovery.escalate /\
   AIRecovery.confidence (fst (AIRecovery.decide 1180000 context r)) = 9 # 10).
Proof.
  apply C8_boot_loop_escalates. simpl. lia.
Defined.
